(** * RPG Admin API: a shallow embedding of [schemas.py], [database.py], [main.py]

    The service is a thin validation and serialisation layer between HTTP
    routes and a MongoDB database.  The three source files are embedded in
    the modules [Schemas], [Database] and [Main]; the modules [Py], [World],
    [Mongo] and [FastAPI] hold the part of the Python runtime, of the
    pymongo/bson driver and of the web framework that the source relies on.

    Python exceptions are results ([Raise]); the module-level global [db],
    the wall clock read by [datetime.now] and the identifiers produced by
    [ObjectId()] live in an explicit [World] threaded through a small state
    and error monad. *)

From Stdlib Require Import ZArith NArith List String Ascii Bool Lia PrimFloat.
From stdpp Require Import gmap strings list pretty.

#[local] Set Warnings "-register-all".
#[local] Open Scope string_scope.
#[local] Open Scope Z_scope.

(** ** Python values *)

Module Py.

(** [datetime.datetime]: broken-down fields; [tz_utc] tells an aware value
    (tzinfo = timezone.utc) from a naive one.  Other time zones do not occur
    in the program. *)
Record datetime := mk_datetime {
  year : N; month : N; day : N;
  hour : N; minute : N; second : N; microsecond : N;
  tz_utc : bool
}.

(** [bson.ObjectId]: the identifier's [binary], a string of bytes held
    here by its length and its value as a big-endian number.  The driver
    generates 12 bytes and so does every identifier it reads from the
    server; [ObjectId(s)] keeps what [bytes.fromhex] makes of a
    24-character [s], which is fewer than 12 bytes when [s] holds
    whitespace. *)
Record ObjectId := mk_ObjectId { nbytes : nat; binary : N }.

(** An identifier of 12 bytes. *)
Definition Oid (n : N) : ObjectId := mk_ObjectId 12 n.
Coercion Oid : N >-> ObjectId.

(** [==] on identifiers compares the binaries: an identifier of fewer than
    12 bytes equals none of 12. *)
Definition ObjectId_eqb (a b : ObjectId) : bool :=
  Nat.eqb (nbytes a) (nbytes b) && (binary a =? binary b)%N.

(** The values a document or a JSON body is made of.  A [dict] keeps its
    items in insertion order, as Python does. *)
Inductive value :=
| VNone
| VBool (b : bool)
| VInt (z : Z)
| VFloat (f : float)
| VStr (s : string)
| VList (l : list value)
| VDict (d : list (string * value))
| VDatetime (t : datetime)
| VObjectId (o : ObjectId).

Definition dict := list (string * value).

(** *** Strings *)

Definition ascii_lower (c : ascii) : ascii :=
  let n := N_of_ascii c in
  if ((65 <=? n) && (n <=? 90))%N then ascii_of_N (n + 32) else c.

(** [str.lower()].  A [str] is held by its UTF-8 bytes.  The letters A to
    Z are lowered, and so is the Kelvin sign U+212A (the bytes 226, 132,
    170), the one character outside ASCII whose lowercase is ASCII, the
    letter k.  Every other character outside ASCII is left as it is: its
    lowercase holds a character outside ASCII as well, and the program
    takes the lowercase of a name only to look it up among ASCII keys. *)
Fixpoint lower (s : string) : string :=
  match s with
  | EmptyString => EmptyString
  | String c r =>
      match r with
      | String c1 (String c2 r') =>
          if Ascii.eqb c "226" && Ascii.eqb c1 "132" && Ascii.eqb c2 "170"
          then String "k" (lower r')
          else String (ascii_lower c) (lower r)
      | _ => String (ascii_lower c) (lower r)
      end
  end.

Definition digit_char (d : N) : ascii :=
  nth (N.to_nat d) (list_ascii_of_string "0123456789abcdef") "0"%char.

(** [n] in base [base], zero-padded to exactly [width] digits. *)
Fixpoint digits (base : N) (width : nat) (n : N) : string :=
  match width with
  | O => EmptyString
  | S w => String.append (digits base w (n / base))
                         (String (digit_char (n mod base)) EmptyString)
  end.

Definition hex_value (c : ascii) : option N :=
  let n := N_of_ascii c in
  if ((48 <=? n) && (n <=? 57))%N then Some (n - 48)%N
  else if ((97 <=? n) && (n <=? 102))%N then Some (n - 87)%N
  else if ((65 <=? n) && (n <=? 70))%N then Some (n - 55)%N
  else None.

(** ASCII whitespace: tab, newline, vertical tab, form feed, carriage
    return and space. *)
Definition is_space (c : ascii) : bool :=
  let n := N_of_ascii c in
  (((9 <=? n) && (n <=? 13)) || (n =? 32))%N.

(** [bytes.fromhex]: two hexadecimal digits a byte, most significant byte
    first, ASCII whitespace skipped where a byte may start; [count] bytes
    of value [acc] are read so far.  Any other character, and a digit left
    without its pair, is a [ValueError] (here [None]). *)
Fixpoint fromhex (count : nat) (acc : N) (s : string) : option ObjectId :=
  match s with
  | EmptyString => Some (mk_ObjectId count acc)
  | String c r =>
      if is_space c then fromhex count acc r
      else
        match hex_value c, r with
        | Some top, String c' r' =>
            match hex_value c' with
            | Some bot => fromhex (S count) (256 * acc + 16 * top + bot)%N r'
            | None => None
            end
        | _, _ => None
        end
  end.

(** [ObjectId(s)] for a string argument: a string of 24 characters that
    [bytes.fromhex] accepts, or [InvalidId] (here [None]).  With 24
    hexadecimal digits the identifier has 12 bytes; with whitespace among
    the 24 characters it has fewer.  (The length is taken in bytes; a
    string with a character outside ASCII is rejected whichever way its
    length is counted, by [bytes.fromhex] if not by the length.) *)
Definition ObjectId_of_str (s : string) : option ObjectId :=
  if Nat.eqb (String.length s) 24 then fromhex 0 0 s else None.

(** [str(oid)]: the bytes in lowercase hexadecimal digits, 24 of them for
    an identifier of 12 bytes. *)
Definition ObjectId_str (o : ObjectId) : string := digits 16 (2 * nbytes o) (binary o).

(** *** datetime *)

Definition isoformat_sep (sep : string) (t : datetime) : string :=
  String.concat ""
    [ digits 10 4 (year t); "-"; digits 10 2 (month t); "-"; digits 10 2 (day t);
      sep;
      digits 10 2 (hour t); ":"; digits 10 2 (minute t); ":"; digits 10 2 (second t);
      if (microsecond t =? 0)%N then "" else String.append "." (digits 10 6 (microsecond t));
      if tz_utc t then "+00:00" else "" ].

(** [datetime.isoformat()]. *)
Definition isoformat (t : datetime) : string := isoformat_sep "T" t.

(** *** dict operations *)

(** [d.get(k)] *)
Fixpoint dict_get (k : string) (d : dict) : option value :=
  match d with
  | [] => None
  | (k', v) :: r => if String.eqb k k' then Some v else dict_get k r
  end.

(** [d[k] = v]: an existing key keeps its place, a new key goes last. *)
Fixpoint dict_set (k : string) (v : value) (d : dict) : dict :=
  match d with
  | [] => [(k, v)]
  | (k', v') :: r =>
      if String.eqb k k' then (k, v) :: r else (k', v') :: dict_set k v r
  end.

(** [del d[k]] and [d.pop(k, None)] *)
Definition dict_del (k : string) (d : dict) : dict :=
  List.filter (fun kv => negb (String.eqb k (fst kv))) d.

(** [{**d, **e}] *)
Definition dict_merge (d e : dict) : dict :=
  fold_left (fun acc kv => dict_set (fst kv) (snd kv) acc) e d.

Definition keys (d : dict) : list string := map fst d.

Definition is_None (v : value) : bool :=
  match v with VNone => true | _ => false end.

Definition is_datetime (v : value) : bool :=
  match v with VDatetime _ => true | _ => false end.

(** Truth value of a dict: [not d] holds for the empty dict. *)
Definition dict_truthy (d : dict) : bool :=
  match d with [] => false | _ => true end.

(** Structural comparison of values. *)
Definition datetime_eqb (a b : datetime) : bool :=
  (year a =? year b)%N && (month a =? month b)%N && (day a =? day b)%N &&
  (hour a =? hour b)%N && (minute a =? minute b)%N && (second a =? second b)%N &&
  (microsecond a =? microsecond b)%N && Bool.eqb (tz_utc a) (tz_utc b).

Fixpoint value_eqb (a b : value) {struct a} : bool :=
  match a, b with
  | VNone, VNone => true
  | VBool x, VBool y => Bool.eqb x y
  | VInt x, VInt y => (x =? y)%Z
  | VFloat x, VFloat y => PrimFloat.eqb x y
  | VStr x, VStr y => String.eqb x y
  | VList xs, VList ys =>
      (fix go (xs ys : list value) {struct xs} : bool :=
         match xs, ys with
         | [], [] => true
         | x :: xs', y :: ys' => value_eqb x y && go xs' ys'
         | _, _ => false
         end) xs ys
  | VDict xs, VDict ys =>
      (fix go (xs ys : list (string * value)) {struct xs} : bool :=
         match xs, ys with
         | [], [] => true
         | (k, x) :: xs', (k', y) :: ys' => String.eqb k k' && value_eqb x y && go xs' ys'
         | _, _ => false
         end) xs ys
  | VDatetime x, VDatetime y => datetime_eqb x y
  | VObjectId x, VObjectId y => ObjectId_eqb x y
  | _, _ => false
  end.

(** [repr] of floats and containers is the interpreter's business; the
    program only feeds it to [str] when a document carries such a value as
    its [_id]. *)
Class Repr := { py_repr : value -> string }.

(** [str(v)] *)
Definition str `{Repr} (v : value) : string :=
  match v with
  | VNone => "None"
  | VBool true => "True"
  | VBool false => "False"
  | VInt z => pretty z
  | VStr s => s
  | VDatetime t => isoformat_sep " " t
  | VObjectId o => ObjectId_str o
  | VFloat _ | VList _ | VDict _ => py_repr v
  end.

End Py.

(** ** The world, and a monad for state and exceptions *)

Module World.
Import Py.

(** A database: the documents of each collection, in natural (insertion)
    order.  A collection that was never written to is empty. *)
Abbreviation MongoDatabase := (gmap string (list dict)).

(** Exceptions the program can raise or let through. *)
Inductive exn :=
| PyException (msg : string)                       (* raise Exception(msg) *)
| HTTPException (status_code : nat) (detail : string)
| ValidationError (errors : list (string * string)) (* pydantic: field, message *)
| DuplicateKeyError
| WriteError.

Inductive result (A : Type) :=
| Ok (a : A)
| Raise (e : exn).
Arguments Ok {A} a.
Arguments Raise {A} e.

(** [db] is the module-level global of database.py ([None] when
    DATABASE_URL or DATABASE_NAME is unset); [clock] lists the successive
    readings of the wall clock and [oid_source] the successive identifiers
    the driver generates. *)
Record World := mk_World {
  db : option MongoDatabase;
  clock : nat -> datetime;
  ticks : nat;
  oid_source : nat -> N;
  oids_drawn : nat
}.

Definition M (A : Type) : Type := World -> result A * World.

Definition ret {A} (a : A) : M A := fun w => (Ok a, w).

Definition bind {A B} (m : M A) (k : A -> M B) : M B :=
  fun w => match m w with
           | (Ok a, w') => k a w'
           | (Raise e, w') => (Raise e, w')
           end.

Definition raise {A} (e : exn) : M A := fun w => (Raise e, w).

Notation "x <- m ;; k" := (bind m (fun x => k))
  (at level 100, m at next level, right associativity).
Notation "m ;;; k" := (bind m (fun _ => k))
  (at level 100, right associativity).

Definition set_db (d : MongoDatabase) : M unit :=
  fun w => (Ok tt, mk_World (Some d) (clock w) (ticks w) (oid_source w) (oids_drawn w)).

(** [datetime.now(timezone.utc)]: the next reading of the clock, aware. *)
Definition now_utc : M datetime :=
  fun w =>
    let t := clock w (ticks w) in
    (Ok (mk_datetime (year t) (month t) (day t) (hour t) (minute t) (second t)
                     (microsecond t) true),
     mk_World (db w) (clock w) (S (ticks w)) (oid_source w) (oids_drawn w)).

(** [ObjectId()]: the next generated identifier. *)
Definition new_ObjectId : M ObjectId :=
  fun w =>
    (Ok (Oid (oid_source w (oids_drawn w) mod 2 ^ 96)%N),
     mk_World (db w) (clock w) (ticks w) (oid_source w) (S (oids_drawn w))).

End World.

(** ** The driver: pymongo and bson

    The store is the one the driver talks to when the server answers and
    every value fits its BSON type: a call on a configured database
    returns.  What the program does when a call returns is what the
    statements below are about. *)

Module Mongo.
Import Py.
Export World.

(** *** BSON *)

(** BSON keeps a date as milliseconds since the epoch, and the driver
    (tz_aware=False, its default) decodes it as a naive datetime. *)
Definition bson_datetime (t : datetime) : datetime :=
  mk_datetime (year t) (month t) (day t) (hour t) (minute t) (second t)
              (microsecond t / 1000 * 1000)%N false.

(** What a value looks like once it has been written and read back.
    Integers are taken to fit the 64 bits BSON gives them. *)
Fixpoint bson (v : value) : value :=
  match v with
  | VList l => VList (map bson l)
  | VDict d => VDict (map (fun kv => match kv with (k, x) => (k, bson x) end) d)
  | VDatetime t => VDatetime (bson_datetime t)
  | _ => v
  end.

Definition bson_doc (d : dict) : dict :=
  map (fun kv => match kv with (k, x) => (k, bson x) end) d.

(** *** Collections *)

Definition collection (d : MongoDatabase) (name : string) : list dict :=
  default [] (d !! name).

(** A query document of equality conditions: every condition's field holds
    an equal value ([None] also matches a missing field). *)
Definition matches (query doc : dict) : bool :=
  forallb (fun cond =>
             match dict_get (fst cond) doc with
             | Some v => value_eqb v (snd cond)
             | None => is_None (snd cond)
             end) query.

(** [coll.find(query)], as the list the cursor yields. *)
Definition find (docs : list dict) (query : dict) : list dict :=
  List.filter (matches query) docs.

(** [cursor.limit(n)]: at most [|n|] documents. *)
Definition cursor_limit (cursor : list dict) (n : Z) : list dict :=
  firstn (Z.abs_nat n) cursor.

(** [coll.find_one(query)] *)
Definition find_one (docs : list dict) (query : dict) : option dict :=
  head (find docs query).

Fixpoint has_char (c : ascii) (s : string) : bool :=
  match s with
  | EmptyString => false
  | String c' r => Ascii.eqb c c' || has_char c r
  end.

(** A key that [$set] takes for the name of a field of the document
    itself: not empty, no ['.'] (which makes the key a path into the
    document), no leading ['$'] (an operator) and no NUL (which a BSON key
    cannot hold). *)
Definition field_name (k : string) : bool :=
  match k with
  | EmptyString => false
  | String c _ =>
      negb (Ascii.eqb c "$") && negb (has_char "." k) && negb (has_char "000" k)
  end.

(** [{"$set": fields}] applied to one document, for keys that are field
    names: a field the document has takes the new value in its place, a
    field it lacks is added.  Other keys are written like field names
    here, which is not what the server does with a path; what is stated
    about the fields of an updated document is stated for field names. *)
Definition apply_set (fields doc : dict) : dict :=
  fold_left (fun acc kv => dict_set (fst kv) (bson (snd kv)) acc) fields doc.

(** The first matching document is updated by [{"$set": fields}]; the
    result is the new list and the number of documents matched. *)
Fixpoint update_first (docs : list dict) (query fields : dict) : list dict * nat :=
  match docs with
  | [] => ([], O)
  | doc :: rest =>
      if matches query doc then (apply_set fields doc :: rest, 1%nat)
      else let '(rest', n) := update_first rest query fields in (doc :: rest', n)
  end.

(** The first matching document is removed; the result is the new list and
    the number of documents deleted. *)
Fixpoint delete_first (docs : list dict) (query : dict) : list dict * nat :=
  match docs with
  | [] => ([], O)
  | doc :: rest =>
      if matches query doc then (rest, 1%nat)
      else let '(rest', n) := delete_first rest query in (doc :: rest', n)
  end.

(** [db[name].update_one(query, {"$set": fields})]; the result is
    [matched_count]. *)
Definition update_one (d : MongoDatabase) (name : string) (query fields : dict) : M nat :=
  let '(docs, matched_count) := update_first (collection d name) query fields in
  match matched_count with
  | O => ret O
  | S _ => set_db (<[name := docs]> d) ;;; ret matched_count
  end.

(** [db[name].delete_one(query)]; the result is [deleted_count]. *)
Definition delete_one (d : MongoDatabase) (name : string) (query : dict) : M nat :=
  let '(docs, deleted_count) := delete_first (collection d name) query in
  match deleted_count with
  | O => ret O
  | S _ => set_db (<[name := docs]> d) ;;; ret deleted_count
  end.

Definition is_list (v : value) : bool :=
  match v with VList _ => true | _ => false end.

(** [db[name].insert_one(doc)]: a document without [_id] gets a generated
    ObjectId; an array is no [_id]; an [_id] already in the collection is a
    duplicate key.  The stored document has [_id] first.  The result is
    [inserted_id]. *)
Definition insert_one (d : MongoDatabase) (name : string) (doc : dict) : M value :=
  _id <- match dict_get "_id" doc with
         | Some v => ret v
         | None => o <- new_ObjectId ;; ret (VObjectId o)
         end ;;
  let stored := bson_doc (("_id", _id) :: dict_del "_id" doc) in
  if is_list _id then raise WriteError
  else if existsb (matches [("_id", bson _id)]) (collection d name)
  then raise DuplicateKeyError
  else set_db (<[name := (collection d name ++ [stored])%list]> d) ;;; ret _id.

End Mongo.

(** ** schemas.py *)

Module Schemas.
Import Py.

(** The annotation of a field.  [TInt ge] is [int] with an optional lower
    bound, [TFloat ge le] a [float] with optional bounds, [TLiteral] a
    [Literal[...]] of strings, [TDict t] a [Dict[str, t]], and [TModel] a
    nested model given by its fields: name, annotation and default
    ([None] for a required field, written [...] or left out in the source;
    a [default_factory] is recorded by the value it builds). *)
Inductive ty :=
| TStr
| TInt (ge : option Z)
| TFloat (ge le : option float)
| TBool
| TLiteral (allowed : list string)
| TOptional (t : ty)
| TList (t : ty)
| TDict (t : ty)
| TModel (fields : list (string * ty * option value)).

Definition int_ := TInt None.
Definition int_ge (m : Z) := TInt (Some m).

(** *** Core shared sub-models *)

Definition StatBlock : ty :=
  TModel [ ("strength", int_, Some (VInt 0)); ("agility", int_, Some (VInt 0));
           ("intelligence", int_, Some (VInt 0)); ("vitality", int_, Some (VInt 0));
           ("luck", int_, Some (VInt 0)); ("defense", int_, Some (VInt 0));
           ("power", int_, Some (VInt 0)) ].

Definition StatBlock_default : value :=
  VDict [ ("strength", VInt 0); ("agility", VInt 0); ("intelligence", VInt 0);
          ("vitality", VInt 0); ("luck", VInt 0); ("defense", VInt 0);
          ("power", VInt 0) ].

Definition RecipeIngredient : ty :=
  TModel [ ("item_id", TStr, None); ("quantity", int_ge 1, Some (VInt 1)) ].

Definition Recipe : ty :=
  TModel [ ("ingredients", TList RecipeIngredient, Some (VList []));
           ("crafting_time_sec", int_ge 0, Some (VInt 0));
           ("crafting_cost", int_ge 0, Some (VInt 0)) ].

Definition ImageData : ty :=
  TModel [ ("url", TOptional TStr, Some VNone); ("alt", TOptional TStr, Some VNone) ].

Definition Rarity : ty :=
  TLiteral ["common"; "uncommon"; "rare"; "epic"; "legendary"; "mythic"].

Definition LootEntry : ty :=
  TModel [ ("item_id", TStr, None);
           ("drop_rate", TFloat (Some 0%float) (Some 1%float), None);
           ("quantity_min", int_ge 1, Some (VInt 1));
           ("quantity_max", int_ge 1, Some (VInt 1)) ].

Definition Reward : ty :=
  TModel [ ("gold", int_, Some (VInt 0)); ("exp", int_, Some (VInt 0));
           ("items", TList LootEntry, Some (VList [])) ].

Definition Reward_default : value :=
  VDict [ ("gold", VInt 0); ("exp", VInt 0); ("items", VList []) ].

Definition StatCheck : ty :=
  TModel [ ("stat", TLiteral ["strength"; "agility"; "intelligence"; "vitality";
                              "luck"; "defense"; "power"], None);
           ("threshold", int_ge 0, None);
           ("success_modifier", TFloat (Some 0%float) None, Some (VFloat 1%float));
           ("fail_penalty", TFloat (Some 0%float) None, Some (VFloat 1%float)) ].

(** *** Collections *)

Inductive Model :=
| Item | LootTable | Expedition | Title | Background | ActivityReward.

Definition model_fields (m : Model) : list (string * ty * option value) :=
  match m with
  | Item =>
      [ ("name", TStr, None);
        ("description", TOptional TStr, Some VNone);
        ("item_type", TLiteral ["weapon"; "armor"; "accessory"; "set";
                                "consumable"; "material"; "key"; "misc"],
                      Some (VStr "misc"));
        ("rarity", Rarity, Some (VStr "common"));
        ("price", int_ge 0, Some (VInt 0));
        ("image", TOptional ImageData, Some VNone);
        ("stats", StatBlock, Some StatBlock_default);
        ("set_parts", TList TStr, Some (VList []));
        ("recipe", TOptional Recipe, Some VNone);
        ("tradable", TBool, Some (VBool true));
        ("stack_size", int_ge 1, Some (VInt 1));
        ("tags", TList TStr, Some (VList [])) ]
  | LootTable =>
      [ ("name", TStr, None);
        ("chest_type", TLiteral ["wood"; "iron"; "gold"; "diamond"; "event";
                                 "boss"; "custom"], Some (VStr "custom"));
        ("entries", TList LootEntry, Some (VList []));
        ("rolls", int_ge 1, Some (VInt 1)) ]
  | Expedition =>
      [ ("name", TStr, None);
        ("description", TOptional TStr, Some VNone);
        ("duration_minutes", int_ge 1, Some (VInt 30));
        ("base_rewards", Reward, Some Reward_default);
        ("loot_table_id", TOptional TStr, Some VNone);
        ("loot_rolls", int_ge 0, Some (VInt 1));
        ("stat_checks", TList StatCheck, Some (VList []));
        ("recommended_stats", StatBlock, Some StatBlock_default);
        ("required_level", int_ge 1, Some (VInt 1)) ]
  | Title =>
      [ ("name", TStr, None);
        ("description", TOptional TStr, Some VNone);
        ("rarity", Rarity, Some (VStr "common"));
        ("acquisition", TOptional TStr, Some VNone) ]
  | Background =>
      [ ("name", TStr, None);
        ("description", TOptional TStr, Some VNone);
        ("image", TOptional ImageData, Some VNone);
        ("rarity", Rarity, Some (VStr "common")) ]
  | ActivityReward =>
      [ ("activity_key", TStr, None);
        ("base_rewards", Reward, Some Reward_default);
        ("loot_table_id", TOptional TStr, Some VNone);
        ("loot_rolls", int_ge 0, Some (VInt 0));
        ("modifiers", TDict (TFloat None None), Some (VDict [])) ]
  end.

Definition model_type (m : Model) : ty := TModel (model_fields m).

(** *** Registry helper for FastAPI *)

Definition MODEL_REGISTRY : gmap string Model :=
  list_to_map [ ("item", Item); ("loottable", LootTable);
                ("expedition", Expedition); ("title", Title);
                ("background", Background); ("activityreward", ActivityReward) ].

Definition get_model_by_collection (collection : string) : option Model :=
  MODEL_REGISTRY !! lower collection.

(** *** Instances of the models *)

Definition in_bounds (ge le : option float) (f : float) : bool :=
  match ge with Some m => PrimFloat.leb m f | None => true end &&
  match le with Some m => PrimFloat.leb f m | None => true end.

(** [has_shape t v]: [v] is what [model_dump()] yields for a field annotated
    [t]: exactly typed, within bounds, and for a model the declared fields
    in their order. *)
Fixpoint has_shape (t : ty) (v : value) {struct t} : bool :=
  match t, v with
  | TStr, VStr _ => true
  | TInt ge, VInt z => match ge with Some m => (m <=? z)%Z | None => true end
  | TFloat ge le, VFloat f => in_bounds ge le f
  | TBool, VBool _ => true
  | TLiteral allowed, VStr s => existsb (String.eqb s) allowed
  | TOptional t', _ => is_None v || has_shape t' v
  | TList t', VList l => forallb (has_shape t') l
  | TDict t', VDict d => forallb (fun kv => has_shape t' (snd kv)) d
  | TModel fs, VDict d =>
      (fix go (fs : list (string * ty * option value)) (d : dict) {struct fs} : bool :=
         match fs, d with
         | [], [] => true
         | (name, t', _) :: fs', (k, x) :: d' =>
             String.eqb name k && has_shape t' x && go fs' d'
         | _, _ => false
         end) fs d
  | _, _ => false
  end.

(** Every declared default is itself a value of the field's annotation. *)
Fixpoint defaults_conform (t : ty) : bool :=
  match t with
  | TOptional t' | TList t' | TDict t' => defaults_conform t'
  | TModel fs =>
      (fix go (fs : list (string * ty * option value)) : bool :=
         match fs with
         | [] => true
         | (_, t', dflt) :: fs' =>
             defaults_conform t' &&
             match dflt with Some v => has_shape t' v | None => true end &&
             go fs'
         end) fs
  | _ => true
  end.

(** An instance of a model class, held by the dict [model_dump()] returns. *)
Record BaseModel := mk_BaseModel {
  model_class : Model;
  model_dump : dict
}.

(** Pydantic's constructor, a model class called on keyword arguments: the
    dump of the instance, or the errors of a [ValidationError]. *)
Class Pydantic := {
  model_init : Model -> dict -> list (string * string) + dict
}.

(** The name of each model class. *)
Definition __name__ (m : Model) : string :=
  match m with
  | Item => "Item"
  | LootTable => "LootTable"
  | Expedition => "Expedition"
  | Title => "Title"
  | Background => "Background"
  | ActivityReward => "ActivityReward"
  end.

(** [MODEL_REGISTRY.items()], in the order the dict literal gives them. *)
Definition registry_items : list (string * Model) :=
  [ ("item", Item); ("loottable", LootTable); ("expedition", Expedition);
    ("title", Title); ("background", Background);
    ("activityreward", ActivityReward) ].

(** Pydantic's [model.model_json_schema()]. *)
Class JsonSchema := {
  model_json_schema : Model -> value
}.

(** Return JSON schema and field summaries for each model to power generic UIs. *)
Definition schema_summary `{JsonSchema} : dict :=
  fold_left
    (fun out item =>
       let '(name, model) := item in
       dict_set name
         (VDict [ ("title", VStr (__name__ model));
                  ("collection", VStr name);
                  ("schema", model_json_schema model) ]) out)
    registry_items [].

End Schemas.

(** ** database.py *)

Module Database.
Import Py Mongo Schemas.

Section helpers.
Context `{Repr}.

Definition _to_dict (data : BaseModel + dict) : dict :=
  match data with
  | inl model => model_dump model
  | inr d => d
  end.

(** The loop over [doc.items()] rebinds, in place, every key whose value is
    a datetime. *)
Definition serialize_doc (doc : dict) : dict :=
  if negb (dict_truthy doc) then doc
  else
    let doc :=
      match dict_get "_id" doc with
      | Some _id =>
          if is_None _id then doc
          else dict_del "_id" (dict_set "id" (VStr (str _id)) doc)  (* expose as 'id' *)
      | None => doc
      end in
    map (fun kv => match kv with
                   | (k, VDatetime v) => (k, VStr (isoformat v))
                   | _ => kv
                   end) doc.

(** *** CRUD operations *)

Definition database_not_available : exn :=
  PyException
    "Database not available. Check DATABASE_URL and DATABASE_NAME environment variables.".

(** [if db is None: raise Exception(...)], and the handle otherwise. *)
Definition require_db : M MongoDatabase :=
  fun w => match db w with
           | None => (Raise database_not_available, w)
           | Some d => (Ok d, w)
           end.

(** Insert a single document with timestamp *)
Definition create_document (collection_name : string) (data : BaseModel + dict) : M string :=
  d <- require_db ;;
  let data_dict := _to_dict data in
  created <- now_utc ;;
  let data_dict := dict_set "created_at" (VDatetime created) data_dict in
  updated <- now_utc ;;
  let data_dict := dict_set "updated_at" (VDatetime updated) data_dict in
  inserted_id <- insert_one d collection_name data_dict ;;
  ret (str inserted_id).

(** Get documents from collection *)
Definition get_documents (collection_name : string) (filter_dict : option dict)
    (limit : option Z) : M (list dict) :=
  d <- require_db ;;
  let cursor := find (collection d collection_name) (default [] filter_dict) in
  let cursor :=
    match limit with
    | Some n => if (n =? 0)%Z then cursor else cursor_limit cursor n
    | None => cursor
    end in
  ret (map serialize_doc cursor).

Definition get_document_by_id (collection_name doc_id : string) : M (option dict) :=
  d <- require_db ;;
  match ObjectId_of_str doc_id with
  | None => ret None
  | Some obj_id =>
      match find_one (collection d collection_name) [("_id", VObjectId obj_id)] with
      | Some doc => ret (if dict_truthy doc then Some (serialize_doc doc) else None)
      | None => ret None
      end
  end.

Definition protected_keys : list string := ["_id"; "id"; "created_at"; "updated_at"].

Definition update_document (collection_name doc_id : string) (data : dict) : M bool :=
  d <- require_db ;;
  match ObjectId_of_str doc_id with
  | None => ret false
  | Some obj_id =>
      let data :=
        List.filter (fun kv => negb (existsb (String.eqb (fst kv)) protected_keys)) data in
      t <- now_utc ;;
      let data := dict_set "updated_at" (VDatetime t) data in
      matched_count <- update_one d collection_name [("_id", VObjectId obj_id)] data ;;
      ret (0 <? matched_count)%nat
  end.

Definition delete_document (collection_name doc_id : string) : M bool :=
  d <- require_db ;;
  match ObjectId_of_str doc_id with
  | None => ret false
  | Some obj_id =>
      deleted_count <- delete_one d collection_name [("_id", VObjectId obj_id)] ;;
      ret (0 <? deleted_count)%nat
  end.

End helpers.

(** Truth value of [os.getenv(...)]: set, and not the empty string. *)
Definition env_truthy (v : option string) : bool :=
  match v with
  | Some (String _ _) => true
  | _ => false
  end.

(** The module-level [db]: [MongoClient(database_url)[database_name]] when
    both variables are set, [None] otherwise.  [client] stands for the
    driver's connection. *)
Definition initial_db (getenv : string -> option string)
    (client : string -> string -> MongoDatabase) : option MongoDatabase :=
  let database_url := getenv "DATABASE_URL" in
  let database_name := getenv "DATABASE_NAME" in
  if env_truthy database_url && env_truthy database_name
  then Some (client (default "" database_url) (default "" database_name))
  else None.

End Database.

(** ** main.py *)

Module Main.
Import Py Mongo Schemas Database.

Section routes.
Context `{Repr} `{Pydantic}.

Record CreatePayload := mk_CreatePayload { data : dict }.
Definition UpdatePayload := CreatePayload.

Definition unknown_collection : exn := HTTPException 404 "Unknown collection".
Definition not_found : exn := HTTPException 404 "Not found".

(** A model class called on keyword arguments: the instance, or pydantic's
    [ValidationError] raised. *)
Definition construct (model : Model) (kwargs : dict) : M BaseModel :=
  match model_init model kwargs with
  | inr dump => ret (mk_BaseModel model dump)
  | inl errors => raise (ValidationError errors)
  end.

(** GET /api/{collection} *)
Definition list_documents (collection : string) (limit : option Z) : M value :=
  match get_model_by_collection collection with
  | None => raise unknown_collection
  | Some model =>
      docs <- get_documents collection None limit ;;
      ret (VDict [("items", VList (map VDict docs))])
  end.

(** GET /api/{collection}/{doc_id} *)
Definition get_document (collection doc_id : string) : M value :=
  match get_model_by_collection collection with
  | None => raise unknown_collection
  | Some model =>
      doc <- get_document_by_id collection doc_id ;;
      match doc with
      | Some doc => if dict_truthy doc then ret (VDict doc) else raise not_found
      | None => raise not_found
      end
  end.

(** POST /api/{collection} *)
Definition create (collection : string) (payload : CreatePayload) : M value :=
  match get_model_by_collection collection with
  | None => raise unknown_collection
  | Some model =>
      (* Validate via Pydantic *)
      obj <- construct model (data payload) ;;
      new_id <- create_document collection (inl obj) ;;
      ret (VDict [("id", VStr new_id)])
  end.

(** PUT /api/{collection}/{doc_id} *)
Definition update (collection doc_id : string) (payload : UpdatePayload) : M value :=
  match get_model_by_collection collection with
  | None => raise unknown_collection
  | Some model =>
      (* Validate partial updates loosely by constructing model with existing doc merged *)
      existing <- get_document_by_id collection doc_id ;;
      match existing with
      | None => raise not_found
      | Some existing =>
          if negb (dict_truthy existing) then raise not_found
          else
            let merged := dict_merge existing (data payload) in
            (* Remove id field before validation *)
            let merged := dict_del "id" merged in
            obj <- construct model merged ;;
            ok <- update_document collection doc_id (data payload) ;;
            if ok then ret (VDict [("ok", VBool true)])
            else raise (HTTPException 400 "Update failed")
      end
  end.

(** PUT makes two calls to the store, and other requests can be served
    between them.  [update_check] is the path operation as far as the
    first call, [get_document_by_id], and the validation of the merge;
    [update_write] is the rest of it, from the second call,
    [update_document], on. *)
Definition update_check (collection doc_id : string) (payload : UpdatePayload) : M unit :=
  match get_model_by_collection collection with
  | None => raise unknown_collection
  | Some model =>
      existing <- get_document_by_id collection doc_id ;;
      match existing with
      | None => raise not_found
      | Some existing =>
          if negb (dict_truthy existing) then raise not_found
          else
            let merged := dict_merge existing (data payload) in
            let merged := dict_del "id" merged in
            obj <- construct model merged ;;
            ret tt
      end
  end.

Definition update_write (collection doc_id : string) (payload : UpdatePayload) : M value :=
  ok <- update_document collection doc_id (data payload) ;;
  if ok then ret (VDict [("ok", VBool true)])
  else raise (HTTPException 400 "Update failed").

(** DELETE /api/{collection}/{doc_id} *)
Definition delete (collection doc_id : string) : M value :=
  match get_model_by_collection collection with
  | None => raise unknown_collection
  | Some model =>
      ok <- delete_document collection doc_id ;;
      if ok then ret (VDict [("ok", VBool true)]) else raise not_found
  end.

End routes.

(** GET / *)
Definition read_root : M value :=
  ret (VDict [("ok", VBool true); ("service", VStr "RPG Admin API")]).

(** GET /schema: expose model JSON schemas for the frontend to generate forms. *)
Definition get_schema `{JsonSchema} : M value :=
  ret (VDict schema_summary).

(** What GET /test finds outside the world: the environment, how
    [from database import db] ends, the handle's [name] attribute when it
    has one, and what [db.list_collection_names()] answers: the names, or
    the message of the exception it raises. *)
Inductive import_outcome :=
| Imported
| ImportError
| ImportRaised (msg : string).

Record Probe := mk_Probe {
  getenv : string -> option string;
  import_db : import_outcome;
  db_name : option string;
  list_collection_names : MongoDatabase -> string + list string
}.

(** [s[:n]], on ASCII text. *)
Definition str_prefix (n : nat) (s : string) : string := substring 0 n s.

(** GET /test *)
Definition test_database (p : Probe) : M value :=
  fun w =>
    let response :=
      [ ("backend", VStr "✅ Running");
        ("database", VStr "❌ Not Available");
        ("database_url", VNone);
        ("database_name", VNone);
        ("connection_status", VStr "Not Connected");
        ("collections", VList []) ] in
    let response :=
      match import_db p with
      | Imported =>
          match db w with
          | Some d =>
              let response := dict_set "database" (VStr "✅ Available") response in
              let response := dict_set "database_url" (VStr "✅ Configured") response in
              let response :=
                dict_set "database_name" (VStr (default "✅ Connected" (db_name p)))
                         response in
              let response := dict_set "connection_status" (VStr "Connected") response in
              match list_collection_names p d with
              | inr collections =>
                  let response :=
                    dict_set "collections" (VList (map VStr (firstn 10 collections)))
                             response in
                  dict_set "database" (VStr "✅ Connected & Working") response
              | inl e =>
                  dict_set "database"
                    (VStr (String.append "⚠️  Connected but Error: " (str_prefix 50 e)))
                    response
              end
          | None => dict_set "database" (VStr "⚠️  Available but not initialized") response
          end
      | ImportError =>
          dict_set "database"
            (VStr "❌ Database module not found (run enable-database first)") response
      | ImportRaised e =>
          dict_set "database" (VStr (String.append "❌ Error: " (str_prefix 50 e))) response
      end in
    let response :=
      dict_set "database_url"
        (VStr (if env_truthy (getenv p "DATABASE_URL") then "✅ Set" else "❌ Not Set"))
        response in
    let response :=
      dict_set "database_name"
        (VStr (if env_truthy (getenv p "DATABASE_NAME") then "✅ Set" else "❌ Not Set"))
        response in
    (Ok (VDict response), w).

End Main.

(** ** The web framework *)

Module FastAPI.
Import Py Mongo Schemas.

(** The requests the five collection routes answer.  [limit] is the query
    parameter of the listing, [None] when the client leaves it out. *)
Inductive request :=
| GET_list (collection : string) (limit : option Z)
| GET_one (collection doc_id : string)
| POST (collection : string) (payload : Main.CreatePayload)
| PUT (collection doc_id : string) (payload : Main.UpdatePayload)
| DELETE (collection doc_id : string).

Definition path_collection (r : request) : string :=
  match r with
  | GET_list c _ | GET_one c _ | POST c _ | PUT c _ _ | DELETE c _ => c
  end.

(** Routing: each request runs its path operation; a query parameter left
    out takes the default of the signature ([limit: Optional[int] = 100]). *)
Definition route `{Repr} `{Pydantic} (r : request) : M value :=
  match r with
  | GET_list c limit => Main.list_documents c (Some (default 100 limit))
  | GET_one c doc_id => Main.get_document c doc_id
  | POST c payload => Main.create c payload
  | PUT c doc_id payload => Main.update c doc_id payload
  | DELETE c doc_id => Main.delete c doc_id
  end.

(** The path operations are plain [def]s, which the framework runs on the
    threads of a pool: requests are served at the same time, and the store
    calls of one can fall between the store calls of another.  GET, POST
    and DELETE make one call to the store each; PUT makes two.
    [put_amid meanwhile] is PUT with whatever the other requests do to the
    world, [meanwhile], taking place between its two calls. *)
Definition put_amid `{Repr} `{Pydantic} (meanwhile : World -> World)
    (c doc_id : string) (payload : Main.UpdatePayload) : M value :=
  fun w =>
    match Main.update_check c doc_id payload w with
    | (Ok _, w') => Main.update_write c doc_id payload (meanwhile w')
    | (Raise e, w') => (Raise e, w')
    end.

(** A request served while others are. *)
Definition route_amid `{Repr} `{Pydantic} (meanwhile : World -> World)
    (r : request) : M value :=
  match r with
  | PUT c doc_id payload => put_amid meanwhile c doc_id payload
  | _ => route r
  end.

(** The status of the response: 200 for a returned body, the status of an
    [HTTPException], and 500 (the server-error middleware) for any other
    exception that leaves the path operation. *)
Definition status_code {A} (r : result A) : nat :=
  match r with
  | Ok _ => 200
  | Raise (HTTPException status _) => status
  | Raise _ => 500
  end.

End FastAPI.

(** ** A strict instance of the libraries *)

Module Strict.
Import Py Mongo Schemas.

(** Validation without coercion: a value is taken as it is when it has the
    annotated type, a nested model fills in its defaults, extra keys are
    ignored. *)
Fixpoint validate (t : ty) (v : value) {struct t} : option value :=
  match t with
  | TOptional t' => if is_None v then Some VNone else validate t' v
  | TList t' =>
      match v with
      | VList l =>
          option_map VList
            ((fix go (l : list value) : option (list value) :=
                match l with
                | [] => Some []
                | x :: r =>
                    match validate t' x, go r with
                    | Some y, Some ys => Some (y :: ys)
                    | _, _ => None
                    end
                end) l)
      | _ => None
      end
  | TDict t' =>
      match v with
      | VDict d =>
          option_map VDict
            ((fix go (d : dict) : option dict :=
                match d with
                | [] => Some []
                | (k, x) :: r =>
                    match validate t' x, go r with
                    | Some y, Some ys => Some ((k, y) :: ys)
                    | _, _ => None
                    end
                end) d)
      | _ => None
      end
  | TModel fs =>
      match v with
      | VDict kw =>
          option_map VDict
            ((fix go (fs : list (string * ty * option value)) : option dict :=
                match fs with
                | [] => Some []
                | (name, t', dflt) :: fs' =>
                    match match dict_get name kw with
                          | Some x => validate t' x
                          | None => dflt
                          end, go fs' with
                    | Some y, Some ys => Some ((name, y) :: ys)
                    | _, _ => None
                    end
                end) fs)
      | _ => None
      end
  | _ => if has_shape t v then Some v else None
  end.

Definition field_errors (kw : dict) (f : string * ty * option value)
  : list (string * string) :=
  let '(name, t, dflt) := f in
  match dict_get name kw with
  | Some x =>
      match validate t x with
      | Some _ => []
      | None => [(name, "Input is not valid")]
      end
  | None =>
      match dflt with
      | Some _ => []
      | None => [(name, "Field required")]
      end
  end.

Definition strict_init (m : Model) (kw : dict) : list (string * string) + dict :=
  match validate (model_type m) (VDict kw) with
  | Some (VDict d) => inr d
  | _ => inl (flat_map (field_errors kw) (model_fields m))
  end.

#[export] Instance strict_pydantic : Pydantic := {| model_init := strict_init |}.

(** A [repr] that tells nothing apart; [str] is exact on identifiers,
    strings, numbers, booleans, dates and [None] whatever [repr] is. *)
#[export] Instance blank_repr : Repr := {| py_repr := fun _ => "" |}.

End Strict.

(** * Specification *)

Import Py World Mongo Schemas Database.

(** ** Vocabulary of the statements *)

(** A value without dates at any depth comes back from the store as it went
    in, and is no date itself. *)
Definition plain (v : value) : Prop := bson v = v /\ is_datetime v = false.

(** What [serialize_doc] makes of a field's value. *)
Definition render (v : value) : value :=
  match v with
  | VDatetime t => VStr (isoformat t)
  | _ => v
  end.

(** The [n]-th reading of the clock from [w] on, as the store keeps it. *)
Definition timestamp (w : World) (n : nat) : datetime :=
  bson_datetime (clock w (n + ticks w)).

(** The world after one reading of the clock. *)
Definition tick (w : World) : World :=
  mk_World (db w) (clock w) (S (ticks w)) (oid_source w) (oids_drawn w).

(** The world with collection [c] replaced. *)
Definition write (c : string) (docs : list dict) (w : World) : World :=
  match db w with
  | Some d =>
      mk_World (Some (<[c := docs]> d)) (clock w) (ticks w) (oid_source w) (oids_drawn w)
  | None => w
  end.


Definition aware (t : datetime) : datetime :=
  mk_datetime (year t) (month t) (day t) (hour t) (minute t) (second t)
              (microsecond t) true.

(** The dict [create_document] hands to [insert_one]. *)
Definition stamped (w : World) (data : dict) : dict :=
  dict_set "updated_at" (VDatetime (aware (clock w (1 + ticks w))))
    (dict_set "created_at" (VDatetime (aware (clock w (0 + ticks w)))) data).

(** The fields [update_document] hands to [$set]. *)
Definition update_fields (w : World) (data : dict) : dict :=
  dict_set "updated_at" (VDatetime (aware (clock w (ticks w))))
    (List.filter (fun kv => negb (existsb (String.eqb (fst kv)) protected_keys)) data).




(** No two documents of a collection carry the same ObjectId. *)
Definition unique_ids (d : MongoDatabase) : Prop :=
  forall c oid, (length (find (collection d c) [("_id", VObjectId oid)]) <= 1)%nat.

Definition world_unique_ids (w : World) : Prop :=
  match db w with
  | Some d => unique_ids d
  | None => True
  end.

(** Whether collection [c] holds a document under the identifier [doc_id]. *)
Definition present (d : MongoDatabase) (c doc_id : string) : bool :=
  match ObjectId_of_str doc_id with
  | Some oid => existsb (matches [("_id", VObjectId oid)]) (collection d c)
  | None => false
  end.

(** The document collection [c] holds under the identifier [doc_id], if
    any: what [find_one({"_id": ObjectId(doc_id)})] returns. *)
Definition stored (d : MongoDatabase) (c doc_id : string) : option dict :=
  match ObjectId_of_str doc_id with
  | Some oid => find_one (collection d c) [("_id", VObjectId oid)]
  | None => None
  end.


(** The [_id] of each document of a collection, in order. *)
Definition ids (docs : list dict) : list (option value) := map (dict_get "_id") docs.

(** A computation that keeps a property of the world. *)
Definition preserves (I : World -> Prop) {A} (m : M A) : Prop :=
  forall w, I w -> I (snd (m w)).

(** ** Sample worlds *)

Module Sample.
Import Strict.

(** Two readings a microsecond apart, on either side of a millisecond. *)
Definition clock (n : nat) : datetime :=
  mk_datetime 2026 11 4 9 42 0 (123999 + N.of_nat n) false.

Definition oids (n : nat) : N := (255 + N.of_nat n)%N.

Definition empty_world : World := mk_World (Some ∅) clock 0 oids 0.

(** No DATABASE_URL: [db] is [None]. *)
Definition offline_world : World := mk_World None clock 0 oids 0.

(** A title, as [Title(name="Hero").model_dump()] gives it. *)
Definition hero : dict :=
  [ ("name", VStr "Hero"); ("description", VNone); ("rarity", VStr "common");
    ("acquisition", VNone) ].

Definition hero_id : string := "0000000000000000000000ff".

Definition hero_world : World :=
  snd (create_document "title" (inl (mk_BaseModel Title hero)) empty_world).

(** Five titles, as the store holds them. *)
Definition title_doc (n : N) (name : string) : dict :=
  [ ("_id", VObjectId n); ("name", VStr name); ("description", VNone);
    ("rarity", VStr "common"); ("acquisition", VNone);
    ("created_at", VDatetime (mk_datetime 2026 11 4 9 42 0 123000 false));
    ("updated_at", VDatetime (mk_datetime 2026 11 4 9 42 0 123000 false)) ].

Definition five_db : MongoDatabase :=
  <["title" := [ title_doc 1 "Hero"; title_doc 2 "Sage"; title_doc 3 "Rogue";
                 title_doc 4 "Baron"; title_doc 5 "Saint" ]]> ∅.

Definition five_world : World := mk_World (Some five_db) clock 10 oids 5.



(** The database of a world that has one. *)
Definition database (w : World) : MongoDatabase := default ∅ (db w).

(** The title as the store holds it, and as the adapter returns it. *)
Definition hero_stored : dict :=
  default [] (head (collection (database hero_world) "title")).

Definition hero_returned : dict :=
  (hero ++ [ ("created_at", VStr "2026-11-04T09:42:00.123000");
             ("updated_at", VStr "2026-11-04T09:42:00.124000");
             ("id", VStr hero_id) ])%list.

(** Payloads: a rarity outside the enumeration, a patch that also names
    fields the adapter owns, an item of an unknown type. *)
Definition purple : Main.UpdatePayload :=
  Main.mk_CreatePayload [("rarity", VStr "purple")].

Definition patch : dict :=
  [ ("rarity", VStr "epic"); ("created_at", VStr "1999-01-01"); ("id", VStr "x") ].

Definition bad_item : Main.CreatePayload :=
  Main.mk_CreatePayload [("item_type", VStr "not-a-real-type")].

Definition epic : Main.UpdatePayload :=
  Main.mk_CreatePayload [("rarity", VStr "epic"); ("nickname", VStr "Champ")].

(** A schema generator that tells the model's name. *)
#[export] Instance named_schema : JsonSchema :=
  {| model_json_schema := fun m => VStr (__name__ m) |}.

(** A deployment with both variables set and twelve collections listed. *)
Definition env (name : string) : option string :=
  if String.eqb name "DATABASE_URL" then Some "mongodb://localhost:27017"
  else if String.eqb name "DATABASE_NAME" then Some "rpg"
  else None.

Definition twelve : list string :=
  ["item"; "loottable"; "expedition"; "title"; "background"; "activityreward";
   "c7"; "c8"; "c9"; "c10"; "c11"; "c12"].

Definition probe : Main.Probe :=
  Main.mk_Probe env Main.Imported (Some "rpg") (fun _ => inr twelve).

Definition live_world : World :=
  mk_World (initial_db env (fun _ _ => ∅)) clock 0 oids 0.

(** The world after the stored title is deleted. *)
Definition cleared_world : World :=
  snd (delete_document "title" hero_id hero_world).

End Sample.


(** * Facts about the embedding *)

(** ** Dicts *)
Section dict_facts.
Implicit Types (d e : dict) (k : string) (v : value).

Lemma dict_get_set_eq k v d : dict_get k (dict_set k v d) = Some v.
Proof.
  induction d as [|[k' v'] r IH]; simpl.
  - now rewrite String.eqb_refl.
  - destruct (String.eqb k k') eqn:E; simpl.
    + now rewrite String.eqb_refl.
    + now rewrite E.
Qed.

Lemma dict_get_set_ne k k' v d :
  k <> k' -> dict_get k' (dict_set k v d) = dict_get k' d.
Proof.
  intros Hne. induction d as [|[k0 v0] r IH]; simpl.
  - destruct (String.eqb k' k) eqn:E; [|reflexivity].
    apply String.eqb_eq in E. congruence.
  - destruct (String.eqb k k0) eqn:E; simpl.
    + apply String.eqb_eq in E. subst k0.
      destruct (String.eqb k' k) eqn:E'; [|reflexivity].
      apply String.eqb_eq in E'. congruence.
    + now rewrite IH.
Qed.

Lemma dict_get_None_keys k d : dict_get k d = None <-> ~ In k (keys d).
Proof.
  induction d as [|[k' v'] r IH]; simpl.
  - tauto.
  - destruct (String.eqb k k') eqn:E.
    + apply String.eqb_eq in E. subst. split; [discriminate | tauto].
    + apply String.eqb_neq in E. rewrite IH. split; [|tauto].
      intros Hn [Hk|Hk]; [congruence | tauto].
Qed.

Lemma dict_set_fresh k v d :
  dict_get k d = None -> dict_set k v d = (d ++ [(k, v)])%list.
Proof.
  induction d as [|[k' v'] r IH]; simpl; [reflexivity|].
  destruct (String.eqb k k'); [discriminate|].
  intros Hr. now rewrite IH.
Qed.

Lemma dict_get_app k d e :
  dict_get k (d ++ e)%list =
  match dict_get k d with Some v => Some v | None => dict_get k e end.
Proof.
  induction d as [|[k' v'] r IH]; simpl; [reflexivity|].
  now destruct (String.eqb k k').
Qed.

Lemma dict_del_fresh k d : dict_get k d = None -> dict_del k d = d.
Proof.
  unfold dict_del. induction d as [|[k' v'] r IH]; simpl; [reflexivity|].
  destruct (String.eqb k k'); [discriminate|]. simpl.
  intros Hr. now rewrite IH.
Qed.

Lemma dict_del_cons_eq k v d : dict_del k ((k, v) :: d) = dict_del k d.
Proof. unfold dict_del. simpl. now rewrite String.eqb_refl. Qed.

Lemma dict_del_app k d e :
  dict_del k (d ++ e)%list = (dict_del k d ++ dict_del k e)%list.
Proof. unfold dict_del. apply List.filter_app. Qed.

Lemma dict_get_del_eq k d : dict_get k (dict_del k d) = None.
Proof.
  unfold dict_del. induction d as [|[k' v'] r IH]; simpl; [reflexivity|].
  destruct (String.eqb k k') eqn:E; simpl; [assumption|].
  now rewrite E.
Qed.

Lemma dict_get_del_ne k k' d :
  k <> k' -> dict_get k' (dict_del k d) = dict_get k' d.
Proof.
  intros Hne. unfold dict_del.
  induction d as [|[k0 v0] r IH]; simpl; [reflexivity|].
  destruct (String.eqb k k0) eqn:E; simpl.
  - apply String.eqb_eq in E. subst k0.
    destruct (String.eqb k' k) eqn:E'; [|assumption].
    apply String.eqb_eq in E'. congruence.
  - now rewrite IH.
Qed.

End dict_facts.

(** ** Identifiers *)

Section hex_facts.
Local Open Scope N_scope.

Lemma length_append (s r : string) :
  String.length (String.append s r) = (String.length s + String.length r)%nat.
Proof. induction s as [|c s IH]; simpl; [reflexivity | now rewrite IH]. Qed.

Lemma digits_length base w n : String.length (digits base w n) = w.
Proof.
  revert n. induction w as [|w IH]; intros n; simpl; [reflexivity|].
  rewrite length_append, IH. simpl. lia.
Qed.

Lemma hex_value_digit d : d < 16 -> hex_value (digit_char d) = Some d.
Proof.
  intros Hd.
  assert (Hc : In d [0;1;2;3;4;5;6;7;8;9;10;11;12;13;14;15]).
  { simpl. lia. }
  simpl in Hc.
  repeat (destruct Hc as [<-|Hc]; [reflexivity|]).
  contradiction.
Qed.

Lemma is_space_digit d : d < 16 -> is_space (digit_char d) = false.
Proof.
  intros Hd.
  assert (Hc : In d [0;1;2;3;4;5;6;7;8;9;10;11;12;13;14;15]).
  { simpl. lia. }
  simpl in Hc.
  repeat (destruct Hc as [<-|Hc]; [reflexivity|]).
  contradiction.
Qed.

Lemma append_assoc (s r t : string) :
  String.append (String.append s r) t = String.append s (String.append r t).
Proof.
  induction s as [|c s IH]; [reflexivity|].
  change (String c (String.append (String.append s r) t) =
          String c (String.append s (String.append r t))).
  now rewrite IH.
Qed.

Lemma append_empty_r (s : string) : String.append s EmptyString = s.
Proof.
  induction s as [|c s IH]; [reflexivity|].
  change (String c (String.append s EmptyString) = String c s). now rewrite IH.
Qed.

(** [2k] digits are read as [k] bytes. *)
Lemma fromhex_digits k : forall count acc n r,
  fromhex count acc (String.append (digits 16 (2 * k) n) r) =
  fromhex (k + count) (acc * 256 ^ N.of_nat k + n mod 256 ^ N.of_nat k) r.
Proof.
  induction k as [|k IH]; intros count acc n r.
  - cbn [Nat.mul digits String.append Nat.add N.of_nat].
    rewrite N.pow_0_r, N.mod_1_r. f_equal. lia.
  - replace (2 * S k)%nat with (S (S (2 * k))) by lia.
    cbn [digits]. rewrite !append_assoc, IH.
    change (String.append (String (digit_char (n / 16 mod 16)) EmptyString)
              (String.append (String (digit_char (n mod 16)) EmptyString) r))
      with (String (digit_char (n / 16 mod 16)) (String (digit_char (n mod 16)) r)).
    cbn [fromhex].
    rewrite !is_space_digit, !hex_value_digit by (apply N.mod_lt; lia).
    replace (S (k + count)) with (S k + count)%nat by lia.
    f_equal. rewrite Nat2N.inj_succ, N.pow_succ_r'.
    rewrite N.Div0.div_div.
    change (16 * 16) with 256.
    rewrite (N.Div0.mod_mul_r n 256).
    assert (H256 : n mod 256 = 16 * (n / 16 mod 16) + n mod 16).
    { change 256 with (16 * 16). rewrite N.Div0.mod_mul_r. lia. }
    set (p := 256 ^ N.of_nat k) in *. lia.
Qed.

Lemma ObjectId_str_roundtrip (n : N) :
  ObjectId_of_str (ObjectId_str (Oid n)) = Some (Oid (n mod 2 ^ 96)).
Proof.
  unfold ObjectId_of_str, ObjectId_str. cbn [nbytes binary Oid].
  rewrite digits_length. cbn [Nat.eqb Nat.mul Nat.add].
  pose proof (fromhex_digits 12 0 0 n EmptyString) as Hread.
  rewrite append_empty_r in Hread.
  change (2 * 12)%nat with 24%nat in Hread.
  rewrite Hread. cbn [fromhex Nat.add]. reflexivity.
Qed.

Lemma fromhex_rejects_upto (n : nat) (bad : ascii) : forall s,
  (String.length s <= n)%nat ->
  hex_value bad = None -> is_space bad = false ->
  In bad (list_ascii_of_string s) ->
  forall count acc, fromhex count acc s = None.
Proof.
  induction n as [|n IH]; intros s Hlen Hhex Hspace Hin count acc.
  - destruct s; [destruct Hin | cbn in Hlen; lia].
  - destruct s as [|c r]; [destruct Hin|].
    cbn [list_ascii_of_string] in Hin. cbn [String.length] in Hlen.
    cbn [fromhex].
    destruct Hin as [->|Hin].
    { now rewrite Hspace, Hhex. }
    destruct (is_space c); [apply IH; [lia | assumption..]|].
    destruct (hex_value c); [|reflexivity].
    destruct r as [|c' r']; [reflexivity|].
    cbn [list_ascii_of_string] in Hin. cbn [String.length] in Hlen.
    destruct Hin as [->|Hin]; [now rewrite Hhex|].
    destruct (hex_value c'); [|reflexivity].
    apply IH; [lia | assumption..].
Qed.

(** [ObjectId(s)] rejects every string that is not 24 characters long, and
    every string with a character that is neither a hexadecimal digit nor
    ASCII whitespace. *)
Lemma ObjectId_of_str_rejects (s : string) :
  String.length s <> 24%nat \/
  (exists bad, In bad (list_ascii_of_string s) /\
               hex_value bad = None /\ is_space bad = false) ->
  ObjectId_of_str s = None.
Proof.
  unfold ObjectId_of_str. intros [Hlen | (bad & Hin & Hhex & Hspace)].
  - apply Nat.eqb_neq in Hlen. now rewrite Hlen.
  - destruct (Nat.eqb _ _); [|reflexivity].
    now apply (fromhex_rejects_upto (String.length s) bad).
Qed.

End hex_facts.

(** ** Shapes *)

Section shape_facts.

Lemma ty_nested_ind (P : ty -> Prop) :
  P TStr -> (forall ge, P (TInt ge)) -> (forall ge le, P (TFloat ge le)) -> P TBool ->
  (forall allowed, P (TLiteral allowed)) ->
  (forall t, P t -> P (TOptional t)) ->
  (forall t, P t -> P (TList t)) ->
  (forall t, P t -> P (TDict t)) ->
  (forall fs, Forall (fun f => P (snd (fst f))) fs -> P (TModel fs)) ->
  forall t, P t.
Proof.
  intros HS HI HF HB HL HO HLi HD HM.
  fix IH 1. intros [ | ge | ge le | | allowed | t | t | t | fs].
  - exact HS.
  - apply HI.
  - apply HF.
  - exact HB.
  - apply HL.
  - apply HO, IH.
  - apply HLi, IH.
  - apply HD, IH.
  - apply HM. induction fs as [|[[name t] dflt] fs IHfs]; constructor.
    + apply IH.
    + exact IHfs.
Qed.

Lemma plain_list l : Forall plain l -> plain (VList l).
Proof.
  intros Hl. split; [|reflexivity]. simpl. f_equal.
  induction Hl as [|x l [Hx _] _ IH]; simpl; [reflexivity|]. now rewrite Hx, IH.
Qed.

Lemma plain_dict (d : dict) : Forall (fun kv => plain (snd kv)) d -> plain (VDict d).
Proof.
  intros Hd. split; [|reflexivity]. simpl. f_equal.
  induction Hd as [|[k x] d [Hx _] _ IH]; simpl; [reflexivity|].
  simpl in Hx. now rewrite Hx, IH.
Qed.

Lemma bson_doc_plain (d : dict) : Forall (fun kv => plain (snd kv)) d -> bson_doc d = d.
Proof.
  intros Hd. apply plain_dict in Hd. destruct Hd as [Hd _]. simpl in Hd.
  now injection Hd.
Qed.

Lemma has_shape_model_items fs : forall d : dict,
  Forall (fun f => forall v, has_shape (snd (fst f)) v = true -> plain v) fs ->
  has_shape (TModel fs) (VDict d) = true ->
  keys d = map (fun f => fst (fst f)) fs /\ Forall (fun kv => plain (snd kv)) d.
Proof.
  induction fs as [|[[name t] dflt] fs IH]; intros d Hfs Hd.
  - destruct d; [split; [reflexivity | constructor] | discriminate].
  - destruct d as [|[k x] d]; [discriminate|].
    cbn in Hd. apply andb_true_iff in Hd as [Hd Hrest].
    apply andb_true_iff in Hd as [Hk Hx].
    apply String.eqb_eq in Hk. subst k.
    inversion Hfs as [|? ? Ht Hfs']; subst.
    destruct (IH d Hfs' Hrest) as [Hkeys Hall].
    split; [simpl; now rewrite Hkeys|].
    constructor; [apply Ht, Hx | exact Hall].
Qed.

Lemma has_shape_plain t : forall v, has_shape t v = true -> plain v.
Proof.
  induction t as [ | ge | ge le | | allowed | t IH | t IH | t IH | fs IH]
    using ty_nested_ind; intros v Hv.
  - destruct v; try discriminate; now split.
  - destruct v; try discriminate; now split.
  - destruct v; try discriminate; now split.
  - destruct v; try discriminate; now split.
  - destruct v; try discriminate; now split.
  - cbn in Hv. apply orb_true_iff in Hv as [Hv|Hv].
    + destruct v; try discriminate; now split.
    + now apply IH.
  - destruct v as [ | | | | | l | | | ]; try discriminate.
    apply plain_list. cbn in Hv. rewrite forallb_forall in Hv.
    apply List.Forall_forall. intros x Hx. apply IH, Hv, Hx.
  - destruct v as [ | | | | | | d | | ]; try discriminate.
    apply plain_dict. cbn in Hv. rewrite forallb_forall in Hv.
    apply List.Forall_forall. intros x Hx. apply IH, Hv, Hx.
  - destruct v as [ | | | | | | d | | ]; try discriminate.
    apply plain_dict. now apply (has_shape_model_items fs d).
Qed.

(** The dump of an instance of a registered model: its keys are the
    declared fields and its values are plain. *)
Lemma model_dump_items (m : Model) (P : dict) :
  has_shape (model_type m) (VDict P) = true ->
  keys P = map (fun f => fst (fst f)) (model_fields m) /\
  Forall (fun kv => plain (snd kv)) P.
Proof.
  intros HP. apply has_shape_model_items; [|exact HP].
  apply List.Forall_forall. intros f _ v. apply has_shape_plain.
Qed.

(** No model declares a field under a name the store adapter owns. *)
Lemma model_dump_no_protected (m : Model) (P : dict) (k : string) :
  has_shape (model_type m) (VDict P) = true ->
  In k Database.protected_keys -> dict_get k P = None.
Proof.
  intros HP Hk. apply model_dump_items in HP as [Hkeys _].
  apply dict_get_None_keys. rewrite Hkeys.
  simpl in Hk.
  destruct Hk as [<-|[<-|[<-|[<-|[]]]]]; destruct m; simpl;
    intros Hin; repeat (destruct Hin as [Hin|Hin]; [discriminate|]); exact Hin.
Qed.

End shape_facts.

(** ** The strict validator *)

Section strict_facts.
Import Strict.

(** What the strict validator accepts is an instance of the model. *)
Lemma validate_has_shape t :
  defaults_conform t = true ->
  forall v v', validate t v = Some v' -> has_shape t v' = true.
Proof.
  induction t as [ | ge | ge le | | allowed | t IH | t IH | t IH | fs IH]
    using ty_nested_ind; intros Hwf v v' Hv;
    try (cbn [validate] in Hv; destruct (has_shape _ v) eqn:Hs; [|discriminate];
         injection Hv as <-; exact Hs).
  - cbn [validate] in Hv. destruct (is_None v).
    + injection Hv as <-. reflexivity.
    + cbn [has_shape]. rewrite (IH Hwf v v' Hv). apply orb_true_r.
  - destruct v as [ | | | | | l | | | ]; try discriminate. cbn in Hv.
    match type of Hv with option_map _ (?go l) = _ => destruct (go l) as [l'|] eqn:Hgo end;
      [|discriminate].
    injection Hv as <-. cbn. revert l' Hgo.
    induction l as [|x l IHl]; intros l' Hgo.
    + injection Hgo as <-. reflexivity.
    + destruct (validate t x) as [y|] eqn:Hy; [|discriminate].
      match type of Hgo with match ?g with _ => _ end = _ => destruct g as [ys|] eqn:Hys end;
        [|discriminate].
      injection Hgo as <-. cbn. rewrite (IH Hwf x y Hy). now apply IHl.
  - destruct v as [ | | | | | | d | | ]; try discriminate. cbn in Hv.
    match type of Hv with option_map _ (?go d) = _ => destruct (go d) as [d'|] eqn:Hgo end;
      [|discriminate].
    injection Hv as <-. cbn. revert d' Hgo.
    induction d as [|[k x] d IHd]; intros d' Hgo.
    + injection Hgo as <-. reflexivity.
    + destruct (validate t x) as [y|] eqn:Hy; [|discriminate].
      match type of Hgo with match ?g with _ => _ end = _ => destruct g as [ys|] eqn:Hys end;
        [|discriminate].
      injection Hgo as <-. cbn. rewrite (IH Hwf x y Hy). now apply IHd.
  - destruct v as [ | | | | | | kw | | ]; try discriminate. cbn in Hv.
    match type of Hv with option_map _ (?go fs) = _ => destruct (go fs) as [d|] eqn:Hgo end;
      [|discriminate].
    injection Hv as <-. revert d Hgo Hwf.
    induction IH as [|[[name t] dflt] fs Ht _ IHfs]; intros d Hgo Hwf.
    + injection Hgo as <-. reflexivity.
    + cbn in Hwf. apply andb_true_iff in Hwf as [Hwf Hrest].
      apply andb_true_iff in Hwf as [Hwt Hdflt].
      match type of Hgo with
      | match ?a with _ => _ end = _ => destruct a as [y|] eqn:Hy; [|discriminate]
      end.
      match type of Hgo with match ?g with _ => _ end = _ => destruct g as [ys|] eqn:Hys end;
        [|discriminate].
      injection Hgo as <-. cbn. rewrite String.eqb_refl. cbn.
      assert (Hshape : has_shape t y = true).
      { destruct (dict_get name kw) as [x|].
        - exact (Ht Hwt x y Hy).
        - subst dflt. exact Hdflt. }
      rewrite Hshape. cbn. exact (IHfs ys eq_refl Hrest).
Qed.

Lemma strict_init_has_shape (m : Model) (kw d : dict) :
  strict_init m kw = inr d -> has_shape (model_type m) (VDict d) = true.
Proof.
  unfold strict_init. intros Hinit.
  destruct (validate (model_type m) (VDict kw)) as [v|] eqn:Hv; [|discriminate].
  destruct v; try discriminate. injection Hinit as ->.
  apply (validate_has_shape (model_type m)) with (v := VDict kw); [|exact Hv].
  now destruct m.
Qed.
End strict_facts.

(** ** The store *)

Section store_facts.
Context `{Repr}.

Lemma collection_insert_eq (d : MongoDatabase) c docs :
  collection (<[c := docs]> d) c = docs.
Proof. unfold collection. now rewrite lookup_insert_eq. Qed.

Lemma collection_insert_ne (d : MongoDatabase) c c' docs :
  c <> c' -> collection (<[c := docs]> d) c' = collection d c'.
Proof. intros Hne. unfold collection. now rewrite lookup_insert_ne. Qed.

Lemma ObjectId_eqb_eq (a b : ObjectId) : ObjectId_eqb a b = true <-> a = b.
Proof.
  destruct a as [ka na], b as [kb nb]. unfold ObjectId_eqb. cbn [nbytes binary].
  rewrite andb_true_iff, Nat.eqb_eq, N.eqb_eq.
  split; [intros [-> ->]; reflexivity | intros [= -> ->]; split; reflexivity].
Qed.

Lemma matches_id_ObjectId (o : ObjectId) (doc : dict) :
  matches [("_id", VObjectId o)] (("_id", VObjectId o) :: doc) = true.
Proof.
  unfold matches. cbn [forallb fst snd dict_get String.eqb Ascii.eqb Bool.eqb value_eqb].
  rewrite andb_true_r. now apply ObjectId_eqb_eq.
Qed.

Lemma find_none_of_existsb docs q :
  existsb (matches q) docs = false -> find docs q = [].
Proof.
  unfold find. induction docs as [|doc docs IH]; simpl; [reflexivity|].
  intros Hex. apply orb_false_iff in Hex as [-> Hex]. now apply IH.
Qed.

Lemma serialize_items_plain (P : dict) :
  Forall (fun kv => plain (snd kv)) P ->
  map (fun kv : string * value =>
         match kv with
         | (k, VDatetime v) => (k, VStr (isoformat v))
         | _ => kv
         end) P = P.
Proof.
  induction 1 as [|[k x] P [_ Hx] _ IH]; simpl; [reflexivity|].
  rewrite IH. simpl in Hx. now destruct x.
Qed.

Lemma serialize_doc_stored (o : ObjectId) (P : dict) (t1 t2 : datetime) :
  dict_get "_id" P = None -> dict_get "id" P = None ->
  Forall (fun kv => plain (snd kv)) P ->
  serialize_doc (("_id", VObjectId o)
                 :: bson_doc ((P ++ [("created_at", VDatetime t1)]) ++
                              [("updated_at", VDatetime t2)])%list) =
  (P ++ [ ("created_at", VStr (isoformat (bson_datetime t1)));
          ("updated_at", VStr (isoformat (bson_datetime t2)));
          ("id", VStr (ObjectId_str o)) ])%list.
Proof.
  intros H_id Hid Hplain.
  unfold bson_doc. rewrite !map_app. fold (bson_doc P).
  rewrite (bson_doc_plain P Hplain). cbn [map bson].
  rewrite <- app_assoc. cbn [app].
  set (rest := (P ++ _)%list).
  assert (Hrest_id : dict_get "id" rest = None).
  { unfold rest. rewrite dict_get_app, Hid. reflexivity. }
  assert (Hrest__id : forall e, dict_get "_id" (rest ++ e)%list = dict_get "_id" e).
  { intros e. unfold rest. rewrite !dict_get_app, H_id. reflexivity. }
  unfold serialize_doc.
  cbn [dict_truthy negb dict_get String.eqb Ascii.eqb Bool.eqb is_None str dict_set].
  rewrite (dict_set_fresh "id") by exact Hrest_id.
  rewrite dict_del_cons_eq, dict_del_fresh by (rewrite Hrest__id; reflexivity).
  unfold rest. rewrite <- app_assoc, map_app.
  rewrite (serialize_items_plain P Hplain). reflexivity.
Qed.

End store_facts.

(** ** Updates *)

Section update_facts.
Context `{Repr}.

Lemma dict_get_bson_doc k (d : dict) :
  dict_get k (bson_doc d) = option_map bson (dict_get k d).
Proof.
  induction d as [|[k' v] d IH]; simpl; [reflexivity|].
  now destruct (String.eqb k k').
Qed.

Lemma keys_dict_set_fresh k v (d : dict) :
  dict_get k d = None -> keys (dict_set k v d) = (keys d ++ [k])%list.
Proof. intros Hk. rewrite dict_set_fresh by exact Hk. unfold keys. now rewrite map_app. Qed.

Lemma dict_get_filter_keys (p : string -> bool) k (d : dict) :
  dict_get k (List.filter (fun kv => p (fst kv)) d) =
  if p k then dict_get k d else None.
Proof.
  induction d as [|[k' v] d IH]; simpl; [now destruct (p k)|].
  destruct (p k') eqn:Hp'; simpl.
  - destruct (String.eqb k k') eqn:E.
    + apply String.eqb_eq in E. subst. now rewrite Hp'.
    + exact IH.
  - rewrite IH. destruct (String.eqb k k') eqn:E; [|reflexivity].
    apply String.eqb_eq in E. subst. now rewrite Hp'.
Qed.

Lemma NoDup_keys_filter (p : string * value -> bool) (d : dict) :
  NoDup (keys d) -> NoDup (keys (List.filter p d)).
Proof.
  unfold keys. induction d as [|[k v] d IH]; simpl; intros Hnd; [constructor|].
  inversion Hnd as [|? ? Hk Hnd']; subst.
  destruct (p (k, v)); simpl; [|now apply IH].
  constructor; [|now apply IH].
  intros Hin. apply Hk. apply list_elem_of_In.
  apply list_elem_of_In, in_map_iff in Hin as [[k' v'] [Hk' Hin]].
  simpl in Hk'. subst k'. apply List.filter_In in Hin as [Hin _].
  apply in_map_iff. now exists (k, v').
Qed.

(** [$set] with a dict of fields: named fields take the new value, as the
    store keeps it; the others stay. *)
Lemma dict_get_apply_set k (fields : dict) : forall doc : dict,
  NoDup (keys fields) ->
  dict_get k (apply_set fields doc) =
  match dict_get k fields with
  | Some v => Some (bson v)
  | None => dict_get k doc
  end.
Proof.
  unfold apply_set.
  induction fields as [|[k0 v0] fields IH]; intros doc Hnd; simpl; [reflexivity|].
  inversion Hnd as [|? ? Hk0 Hnd']; subst.
  rewrite IH by exact Hnd'.
  destruct (String.eqb k k0) eqn:E.
  - apply String.eqb_eq in E. subst k0.
    rewrite list_elem_of_In in Hk0.
    apply dict_get_None_keys in Hk0. rewrite Hk0.
    apply dict_get_set_eq.
  - apply String.eqb_neq in E.
    destruct (dict_get k fields); [reflexivity|].
    apply dict_get_set_ne. congruence.
Qed.

(** The first match splits the collection. *)
Lemma find_one_split (docs : list dict) q doc :
  find_one docs q = Some doc ->
  exists docs1 docs2,
    docs = (docs1 ++ doc :: docs2)%list /\
    matches q doc = true /\
    find docs1 q = [].
Proof.
  unfold find_one, find.
  induction docs as [|x docs IH]; simpl; [discriminate|].
  destruct (matches q x) eqn:Hx; simpl.
  - intros [= ->]. exists [], docs. now repeat split.
  - intros Hfind. destruct (IH Hfind) as (docs1 & docs2 & -> & Hm & Hnone).
    exists (x :: docs1), docs2. repeat split; [exact Hm|].
    simpl. now rewrite Hx.
Qed.

Lemma update_first_split (docs1 docs2 : list dict) q fields doc :
  find docs1 q = [] -> matches q doc = true ->
  update_first (docs1 ++ doc :: docs2) q fields =
  ((docs1 ++ apply_set fields doc :: docs2)%list, 1%nat).
Proof.
  unfold find. induction docs1 as [|x docs1 IH]; simpl; intros Hnone Hm.
  - now rewrite Hm.
  - destruct (matches q x); [discriminate|]. now rewrite IH.
Qed.

Lemma delete_first_split (docs1 docs2 : list dict) q doc :
  find docs1 q = [] -> matches q doc = true ->
  delete_first (docs1 ++ doc :: docs2) q = ((docs1 ++ docs2)%list, 1%nat).
Proof.
  unfold find. induction docs1 as [|x docs1 IH]; simpl; intros Hnone Hm.
  - now rewrite Hm.
  - destruct (matches q x); [discriminate|]. now rewrite IH.
Qed.

Lemma dict_get_apply_set_other k (fields : dict) : forall doc : dict,
  dict_get k fields = None -> dict_get k (apply_set fields doc) = dict_get k doc.
Proof.
  unfold apply_set.
  induction fields as [|[k0 v0] fields IH]; intros doc Hk; [reflexivity|].
  cbn [dict_get] in Hk. cbn [fold_left fst snd].
  destruct (String.eqb k k0) eqn:E; [discriminate|].
  rewrite IH by exact Hk. apply dict_get_set_ne.
  apply String.eqb_neq in E. congruence.
Qed.


Lemma delete_first_none (docs : list dict) q :
  find docs q = [] -> delete_first docs q = (docs, O).
Proof.
  unfold find. induction docs as [|x docs IH]; simpl; [reflexivity|].
  destruct (matches q x); [discriminate|]. intros Hn. now rewrite IH.
Qed.

Lemma update_document_run (w : World) d c doc_id oid data :
  db w = Some d -> ObjectId_of_str doc_id = Some oid ->
  update_document c doc_id data w =
  match update_first (collection d c) [("_id", VObjectId oid)] (update_fields w data) with
  | (docs, S _) => (Ok true, write c docs (tick w))
  | (_, O) => (Ok false, tick w)
  end.
Proof.
  intros Hdb Hid. destruct w as [wdb clk tk src drawn]. cbn [db] in Hdb. subst wdb.
  unfold update_document, bind, require_db. cbn [db]. rewrite Hid.
  cbn [now_utc db clock ticks oid_source oids_drawn].
  unfold update_one, update_fields. cbn [db clock ticks oid_source oids_drawn].
  destruct (update_first _ _ _) as [docs [|n]]; reflexivity.
Qed.

Lemma update_fields_get (w : World) (data : dict) k :
  NoDup (keys data) ->
  dict_get k (update_fields w data) =
  if String.eqb k "updated_at"
  then Some (VDatetime (aware (clock w (ticks w))))
  else if existsb (String.eqb k) protected_keys then None else dict_get k data.
Proof.
  intros Hnd. unfold update_fields.
  destruct (String.eqb k "updated_at") eqn:E.
  - apply String.eqb_eq in E. subst. apply dict_get_set_eq.
  - apply String.eqb_neq in E. rewrite dict_get_set_ne by congruence.
    rewrite (dict_get_filter_keys (fun k => negb (existsb (String.eqb k) protected_keys))).
    now destruct (existsb (String.eqb k) protected_keys).
Qed.

Lemma update_fields_NoDup (w : World) (data : dict) :
  NoDup (keys data) -> NoDup (keys (update_fields w data)).
Proof.
  intros Hnd. unfold update_fields.
  set (kept := List.filter _ data).
  assert (Hfresh : dict_get "updated_at" kept = None).
  { unfold kept.
    rewrite (dict_get_filter_keys (fun k => negb (existsb (String.eqb k) protected_keys))).
    reflexivity. }
  rewrite keys_dict_set_fresh by exact Hfresh.
  apply NoDup_app. repeat split.
  - now apply NoDup_keys_filter.
  - intros x Hx Hx'. apply list_elem_of_In in Hx, Hx'. destruct Hx' as [<-|[]].
    apply dict_get_None_keys in Hfresh. contradiction.
  - repeat constructor. intros Hin. apply list_elem_of_In in Hin. destruct Hin.
Qed.

End update_facts.

(** ** The adapter *)

Section adapter_facts.
Context `{Repr}.

Lemma dict_get_render_items k (d : dict) :
  dict_get k (map (fun kv : string * value =>
                     match kv with
                     | (k, VDatetime v) => (k, VStr (isoformat v))
                     | _ => kv
                     end) d) = option_map render (dict_get k d).
Proof.
  induction d as [|[k' v] d IH]; simpl; [reflexivity|].
  destruct v; simpl; now destruct (String.eqb k k').
Qed.

Lemma dict_truthy_get k (d : dict) v : dict_get k d = Some v -> dict_truthy d = true.
Proof. destruct d; [discriminate | reflexivity]. Qed.

(** A document with an [_id] other than [None] leaves with [id] instead. *)
Lemma serialize_doc_renames (doc : dict) v :
  dict_get "_id" doc = Some v -> is_None v = false ->
  dict_get "_id" (serialize_doc doc) = None /\
  dict_get "id" (serialize_doc doc) = Some (VStr (str v)).
Proof.
  intros Hid Hv. unfold serialize_doc.
  rewrite (dict_truthy_get _ _ _ Hid), Hid, Hv. cbn [negb].
  rewrite !dict_get_render_items.
  rewrite dict_get_del_eq, dict_get_del_ne by discriminate.
  rewrite dict_get_set_eq. split; reflexivity.
Qed.

(** Every other field leaves under its own key, a datetime as text. *)
Lemma serialize_doc_fields (doc : dict) k :
  k <> "_id" -> k <> "id" ->
  dict_get k (serialize_doc doc) = option_map render (dict_get k doc).
Proof.
  intros H_id Hid. unfold serialize_doc.
  destruct (dict_truthy doc) eqn:Ht; cbn [negb].
  - rewrite dict_get_render_items. f_equal.
    destruct (dict_get "_id" doc) as [v|]; [|reflexivity].
    destruct (is_None v); [reflexivity|].
    rewrite dict_get_del_ne, dict_get_set_ne by congruence. reflexivity.
  - destruct doc; [reflexivity | discriminate].
Qed.


Lemma serialize_doc_keeps_None_id (doc : dict) :
  dict_get "_id" doc = Some VNone ->
  dict_get "_id" (serialize_doc doc) = Some VNone.
Proof.
  intros Hid. unfold serialize_doc.
  rewrite (dict_truthy_get _ _ _ Hid), Hid. cbn [negb is_None].
  rewrite dict_get_render_items, Hid. reflexivity.
Qed.

Lemma matches_id_inv (o : ObjectId) (doc : dict) :
  matches [("_id", VObjectId o)] doc = true -> dict_get "_id" doc = Some (VObjectId o).
Proof.
  unfold matches. cbn [forallb fst snd]. rewrite andb_true_r.
  destruct (dict_get "_id" doc) as [v|]; [|discriminate].
  destruct v; try discriminate. cbn [value_eqb].
  intros E. apply ObjectId_eqb_eq in E. now subst.
Qed.


Lemma find_all (docs : list dict) : find docs [] = docs.
Proof. unfold find. induction docs; simpl; [reflexivity | now f_equal]. Qed.

Lemma find_one_In (docs : list dict) q doc :
  find_one docs q = Some doc -> In doc docs /\ matches q doc = true.
Proof.
  intros Hf. destruct (find_one_split _ _ _ Hf) as (docs1 & docs2 & -> & Hm & _).
  split; [|exact Hm]. apply in_or_app. right. now left.
Qed.

(** [get_documents] on an available store. *)
Lemma get_documents_run (w : World) d c q limit :
  db w = Some d ->
  get_documents c q limit w =
  (Ok (map serialize_doc
         (let cursor := find (collection d c) (default [] q) in
          match limit with
          | Some n => if (n =? 0)%Z then cursor else cursor_limit cursor n
          | None => cursor
          end)), w).
Proof.
  intros Hdb. unfold get_documents, bind, require_db. now rewrite Hdb.
Qed.

(** [get_document_by_id] on an available store. *)
Lemma get_document_by_id_run (w : World) d c doc_id :
  db w = Some d ->
  get_document_by_id c doc_id w =
  (Ok match ObjectId_of_str doc_id with
      | None => None
      | Some obj_id =>
          match find_one (collection d c) [("_id", VObjectId obj_id)] with
          | Some doc => Some (serialize_doc doc)
          | None => None
          end
      end, w).
Proof.
  intros Hdb. unfold get_document_by_id, bind, require_db. rewrite Hdb.
  destruct (ObjectId_of_str doc_id) as [o|]; [|reflexivity].
  destruct (find_one _ _) as [doc|] eqn:Hf; [|reflexivity].
  apply find_one_In in Hf as [_ Hm]. apply matches_id_inv in Hm.
  now rewrite (dict_truthy_get _ _ _ Hm).
Qed.

Lemma delete_document_run (w : World) d c doc_id oid :
  db w = Some d -> ObjectId_of_str doc_id = Some oid ->
  delete_document c doc_id w =
  match delete_first (collection d c) [("_id", VObjectId oid)] with
  | (docs, S _) => (Ok true, write c docs w)
  | (_, O) => (Ok false, w)
  end.
Proof.
  intros Hdb Hid. destruct w as [wdb clk tk src drawn]. cbn [db] in Hdb. subst wdb.
  unfold delete_document, bind, require_db. cbn [db]. rewrite Hid.
  unfold delete_one.
  destruct (delete_first _ _) as [docs [|n]]; reflexivity.
Qed.

(** Without a database every operation raises before it looks at its
    arguments. *)
Lemma no_database (w : World) c doc_id data payload q limit :
  db w = None ->
  create_document c payload w = (Raise database_not_available, w) /\
  get_documents c q limit w = (Raise database_not_available, w) /\
  get_document_by_id c doc_id w = (Raise database_not_available, w) /\
  update_document c doc_id data w = (Raise database_not_available, w) /\
  delete_document c doc_id w = (Raise database_not_available, w).
Proof.
  intros Hdb.
  unfold create_document, get_documents, get_document_by_id, update_document,
    delete_document, bind, require_db.
  rewrite Hdb. repeat split.
Qed.

Lemma create_document_run (w : World) d c data :
  db w = Some d ->
  create_document c data w =
  (inserted_id <- insert_one d c (stamped w (_to_dict data)) ;;
   ret (str inserted_id)) (tick (tick w)).
Proof.
  intros Hdb. destruct w as [wdb clk tk src drawn]. cbn [db] in Hdb. subst wdb.
  reflexivity.
Qed.

Lemma insert_one_inv (w w' : World) d c (doc : dict) _id :
  insert_one d c doc w = (Ok _id, w') ->
  find (collection d c) [("_id", bson _id)] = [] /\
  (dict_get "_id" doc = None -> exists o, _id = VObjectId (o mod 2 ^ 96)%N) /\
  db w' = Some (<[c := (collection d c ++
                  [bson_doc (("_id", _id) :: dict_del "_id" doc)])%list]> d).
Proof.
  destruct w as [wdb clk tk src drawn].
  unfold insert_one, bind.
  destruct (dict_get "_id" doc) as [v|] eqn:Hv.
  - cbn [ret]. destruct (is_list v); [cbv [raise]; discriminate|].
    destruct (existsb _ _) eqn:Hdup; [cbv [raise]; discriminate|].
    cbn [set_db ret db clock ticks oid_source oids_drawn].
    intros [= <- <-]. repeat split; [|discriminate].
    now apply find_none_of_existsb.
  - cbn [new_ObjectId ret is_list db clock ticks oid_source oids_drawn].
    destruct (existsb _ _) eqn:Hdup; [cbv [raise]; discriminate|].
    cbn [set_db ret db clock ticks oid_source oids_drawn].
    intros [= <- <-]. repeat split; [|eauto].
    now apply find_none_of_existsb.
Qed.

Lemma dict_get_stamped (w : World) (data : dict) k :
  k <> "created_at" -> k <> "updated_at" ->
  dict_get k (stamped w data) = dict_get k data.
Proof.
  intros Hc Hu. unfold stamped. now rewrite !dict_get_set_ne by congruence.
Qed.

Lemma create_document_inv (w w' : World) c data id :
  create_document c data w = (Ok id, w') ->
  exists d _id,
    db w = Some d /\
    id = str _id /\
    find (collection d c) [("_id", bson _id)] = [] /\
    (dict_get "_id" (_to_dict data) = None -> exists o, _id = VObjectId (o mod 2 ^ 96)%N) /\
    db w' = Some (<[c := (collection d c ++
                    [bson_doc (("_id", _id) :: dict_del "_id" (stamped w (_to_dict data)))])%list]> d).
Proof.
  destruct (db w) as [d|] eqn:Hdb.
  - rewrite (create_document_run w d) by exact Hdb.
    unfold bind at 1.
    destruct (insert_one _ _ _ _) as [[_id|e] w1] eqn:Hins; [|discriminate].
    cbn [ret]. intros [= <- <-].
    apply insert_one_inv in Hins as (Hfresh & Hoid & Hdb').
    rewrite dict_get_stamped in Hoid by discriminate.
    exists d, _id. auto.
  - intros Hc. unfold create_document, bind, require_db in Hc.
    rewrite Hdb in Hc. discriminate.
Qed.

Lemma get_document_by_id_pure (w w' : World) c doc_id r :
  get_document_by_id c doc_id w = (r, w') -> w' = w.
Proof.
  destruct (db w) as [d|] eqn:Hdb.
  - rewrite (get_document_by_id_run w d c doc_id Hdb). congruence.
  - unfold get_document_by_id, bind, require_db. rewrite Hdb. congruence.
Qed.

Lemma get_document_by_id_found (w w' : World) c doc_id r :
  get_document_by_id c doc_id w = (Ok (Some r), w') ->
  exists d oid doc,
    db w = Some d /\ ObjectId_of_str doc_id = Some oid /\
    find_one (collection d c) [("_id", VObjectId oid)] = Some doc /\
    r = serialize_doc doc.
Proof.
  destruct (db w) as [d|] eqn:Hdb.
  - rewrite (get_document_by_id_run w d c doc_id Hdb).
    destruct (ObjectId_of_str doc_id) as [oid|]; [|discriminate].
    destruct (find_one _ _) as [doc|] eqn:Hf; [|discriminate].
    intros [= <- <-]. now exists d, oid, doc.
  - unfold get_document_by_id, bind, require_db. rewrite Hdb. discriminate.
Qed.



End adapter_facts.

(** ** Creation *)

Section create_facts.
Context `{Repr}.

Lemma stamped_fresh (w : World) (P : dict) :
  dict_get "created_at" P = None -> dict_get "updated_at" P = None ->
  stamped w P =
  ((P ++ [("created_at", VDatetime (aware (clock w (0 + ticks w))))]) ++
   [("updated_at", VDatetime (aware (clock w (1 + ticks w))))])%list.
Proof.
  intros Hc Hu. unfold stamped.
  rewrite (dict_set_fresh "created_at") by exact Hc.
  rewrite (dict_set_fresh "updated_at") by (rewrite dict_get_app, Hu; reflexivity).
  reflexivity.
Qed.

Lemma existsb_of_find_none (docs : list dict) q :
  find docs q = [] -> existsb (matches q) docs = false.
Proof.
  unfold find. induction docs as [|x docs IH]; simpl; [reflexivity|].
  destruct (matches q x); [discriminate|]. exact IH.
Qed.

(** [create_document] returns when the store is available and the
    generated identifier is new to the collection. *)
Lemma create_document_returns (w : World) d c (obj : BaseModel) :
  db w = Some d ->
  dict_get "_id" (model_dump obj) = None ->
  find (collection d c)
       [("_id", VObjectId (oid_source w (oids_drawn w) mod 2 ^ 96)%N)] = [] ->
  exists w',
    create_document c (inl obj) w =
    (Ok (ObjectId_str (oid_source w (oids_drawn w) mod 2 ^ 96)%N), w').
Proof.
  intros Hdb H_id Hfresh.
  rewrite (create_document_run w d) by exact Hdb.
  destruct w as [wdb clk tk src drawn]. cbn [db oid_source oids_drawn] in *. subst wdb.
  unfold bind, insert_one, bind.
  rewrite dict_get_stamped by discriminate. cbn [_to_dict]. rewrite H_id.
  cbn [tick new_ObjectId ret is_list bson db clock ticks oid_source oids_drawn].
  rewrite (existsb_of_find_none _ _ Hfresh).
  cbn [set_db ret str]. eauto.
Qed.

End create_facts.

(** ** Confinement to one collection *)

Section confinement.
Context `{Repr} `{Pydantic}.






















Lemma create_invalid_raises (w : World) (c : string)
    (payload : Main.CreatePayload) (model : Model) (errors : list (string * string)) :
  get_model_by_collection c = Some model ->
  model_init model (Main.data payload) = inl errors ->
  Main.create c payload w = (Raise (ValidationError errors), w).
Proof.
  intros Hmodel Hinvalid. unfold Main.create. rewrite Hmodel.
  unfold bind, Main.construct. now rewrite Hinvalid.
Qed.

End confinement.

(** * The claims *)

(** C1.  Round trip: for a registered collection [c] and an instance [P] of
    its model, when [create_document] returns an identifier,
    [get_document_by_id] on that identifier returns [P] followed by the
    server-assigned [created_at], [updated_at] (the two clock readings of
    the call, as text) and [id] (the returned identifier). *)
Theorem create_then_get_roundtrip `{Repr} (w w' : World) (c : string) (m : Model)
    (P : dict) (id : string) :
  get_model_by_collection c = Some m ->
  has_shape (model_type m) (VDict P) = true ->
  create_document c (inl (mk_BaseModel m P)) w = (Ok id, w') ->
  get_document_by_id c id w' =
  (Ok (Some (P ++ [ ("created_at", VStr (isoformat (timestamp w 0)));
                    ("updated_at", VStr (isoformat (timestamp w 1)));
                    ("id", VStr id) ])%list), w').
Proof.
  intros _ Hshape Hcreate.
  pose proof (model_dump_no_protected m P) as Hkeys.
  assert (H_id : dict_get "_id" P = None) by (apply Hkeys; simpl; tauto).
  assert (Hid : dict_get "id" P = None) by (apply Hkeys; simpl; tauto).
  assert (Hc : dict_get "created_at" P = None) by (apply Hkeys; simpl; tauto).
  assert (Hu : dict_get "updated_at" P = None) by (apply Hkeys; simpl; tauto).
  apply model_dump_items in Hshape as [_ Hplain].
  apply create_document_inv in Hcreate as (d & _id & Hdb & -> & Hfresh & Hoid & Hdb').
  destruct (Hoid H_id) as [o ->]. clear Hoid.
  cbn [_to_dict model_dump] in Hdb'. cbn [bson] in Hfresh.
  rewrite (get_document_by_id_run w' _ c _ Hdb').
  cbn [str]. rewrite ObjectId_str_roundtrip, N.Div0.mod_mod.
  rewrite collection_insert_eq.
  unfold find_one. unfold find at 1. rewrite List.filter_app.
  fold (find (collection d c) [("_id", VObjectId (o mod 2 ^ 96)%N)]).
  rewrite Hfresh.
  rewrite dict_del_fresh by (rewrite dict_get_stamped by discriminate; exact H_id).
  rewrite stamped_fresh by assumption.
  cbn [bson_doc map bson app List.filter].
  rewrite matches_id_ObjectId. cbn [head].
  rewrite serialize_doc_stored by assumption.
  reflexivity.
Qed.

(** C2.  A PUT on an existing document whose merge with the client's fields
    fails validation raises the validation error with the world exactly as
    it was: [update_document] is never reached (it would have read the
    clock), nothing is written, and a GET afterwards returns the document
    unchanged. *)
Theorem update_rejects_invalid_merge `{Repr} `{Pydantic} (w w1 : World)
    (c doc_id : string) (payload : Main.UpdatePayload) (model : Model)
    (existing : dict) (errors : list (string * string)) :
  get_model_by_collection c = Some model ->
  get_document_by_id c doc_id w = (Ok (Some existing), w1) ->
  model_init model (dict_del "id" (dict_merge existing (Main.data payload))) = inl errors ->
  Main.update c doc_id payload w = (Raise (ValidationError errors), w) /\
  Main.get_document c doc_id (snd (Main.update c doc_id payload w)) =
    (Ok (VDict existing), w).
Proof.
  intros Hmodel Hget Hinvalid.
  pose proof (get_document_by_id_pure _ _ _ _ _ Hget) as ->.
  assert (Htruthy : dict_truthy existing = true).
  { apply get_document_by_id_found in Hget as (d & oid & doc & _ & _ & Hf & ->).
    apply find_one_In in Hf as [_ Hm]. apply matches_id_inv in Hm.
    destruct (serialize_doc_renames doc _ Hm eq_refl) as [_ Hid].
    exact (dict_truthy_get _ _ _ Hid). }
  assert (Hupdate : Main.update c doc_id payload w = (Raise (ValidationError errors), w)).
  { unfold Main.update. rewrite Hmodel. unfold bind at 1. rewrite Hget.
    rewrite Htruthy. cbn [negb]. unfold bind, Main.construct.
    rewrite Hinvalid. reflexivity. }
  split; [exact Hupdate|].
  rewrite Hupdate. cbn [snd].
  unfold Main.get_document. rewrite Hmodel. unfold bind. rewrite Hget.
  now rewrite Htruthy.
Qed.



(** C5, what the code does.  A POST to a known collection whose payload
    fails validation lets pydantic's [ValidationError] out of the path
    operation, and the response is a 500, not the 422 the claim asks for. *)
Theorem create_invalid_payload_status `{Repr} `{Pydantic} (w : World) (c : string)
    (payload : Main.CreatePayload) (model : Model) (errors : list (string * string)) :
  get_model_by_collection c = Some model ->
  model_init model (Main.data payload) = inl errors ->
  FastAPI.route (FastAPI.POST c payload) w = (Raise (ValidationError errors), w) /\
  FastAPI.status_code (fst (FastAPI.route (FastAPI.POST c payload) w)) = 500%nat.
Proof.
  intros Hmodel Hinvalid. cbn [FastAPI.route].
  rewrite (create_invalid_raises w c payload model errors Hmodel Hinvalid).
  split; reflexivity.
Qed.


(** C7, as amended.  When [create_document] returns, the document it
    appended to the collection carries as [created_at] and [updated_at] the
    two successive clock readings of the call, each at the store's
    millisecond precision; the two fields are equal exactly when those two
    readings fall in the same millisecond. *)
Theorem create_document_timestamps `{Repr} (w w' : World) (c : string)
    (data : BaseModel + dict) (id : string) :
  create_document c data w = (Ok id, w') ->
  exists d d' stored,
    db w = Some d /\ db w' = Some d' /\
    collection d' c = (collection d c ++ [stored])%list /\
    dict_get "created_at" stored = Some (VDatetime (timestamp w 0)) /\
    dict_get "updated_at" stored = Some (VDatetime (timestamp w 1)) /\
    (dict_get "created_at" stored = dict_get "updated_at" stored <->
     timestamp w 0 = timestamp w 1).
Proof.
  intros Hcreate.
  apply create_document_inv in Hcreate as (d & _id & Hdb & _ & _ & _ & Hdb').
  eexists d, _, _. split; [exact Hdb|]. split; [exact Hdb'|].
  split; [apply collection_insert_eq|].
  assert (Hc : dict_get "created_at"
                 (bson_doc (("_id", _id) :: dict_del "_id" (stamped w (_to_dict data)))) =
               Some (VDatetime (timestamp w 0))).
  { rewrite dict_get_bson_doc. cbn [dict_get String.eqb Ascii.eqb Bool.eqb].
    rewrite dict_get_del_ne by discriminate.
    unfold stamped. rewrite dict_get_set_ne by discriminate.
    rewrite dict_get_set_eq. reflexivity. }
  assert (Hu : dict_get "updated_at"
                 (bson_doc (("_id", _id) :: dict_del "_id" (stamped w (_to_dict data)))) =
               Some (VDatetime (timestamp w 1))).
  { rewrite dict_get_bson_doc. cbn [dict_get String.eqb Ascii.eqb Bool.eqb].
    rewrite dict_get_del_ne by discriminate.
    unfold stamped. rewrite dict_get_set_eq. reflexivity. }
  rewrite Hc, Hu. repeat split; congruence.
Qed.

(** C8.  GET /api/{collection} with a name the registry does not know
    raises the 404 before the store is looked at: whatever the world, also
    with no database configured, the answer is 404 and the world is
    unchanged. *)
Theorem list_unknown_collection_404 `{Repr} `{Pydantic} (w : World) (c : string)
    (limit : option Z) :
  get_model_by_collection c = None ->
  Main.list_documents c limit w = (Raise (HTTPException 404 "Unknown collection"), w) /\
  FastAPI.route (FastAPI.GET_list c limit) w =
    (Raise (HTTPException 404 "Unknown collection"), w) /\
  FastAPI.status_code (fst (FastAPI.route (FastAPI.GET_list c limit) w)) = 404%nat.
Proof.
  intros Hnone. unfold FastAPI.route, Main.list_documents. rewrite Hnone.
  repeat split.
Qed.

(** C9.  [get_documents] with a limit other than zero returns the first
    documents of the matching ones, up to the limit's magnitude, so their
    number is the smaller of the two (2 of 5 for a limit of 2); with no
    limit, or a limit of zero, it returns all of them; with no filter the
    matching documents are the whole collection. *)
Theorem get_documents_limit `{Repr} (w : World) d (c : string) (q : option dict) :
  db w = Some d ->
  (q = None -> find (collection d c) (default [] q) = collection d c) /\
  (forall n : Z, n <> 0%Z ->
     exists docs,
       get_documents c q (Some n) w = (Ok docs, w) /\
       docs = firstn (Z.abs_nat n)
                (map serialize_doc (find (collection d c) (default [] q))) /\
       length docs =
         Nat.min (Z.abs_nat n) (length (find (collection d c) (default [] q)))) /\
  get_documents c q None w =
    (Ok (map serialize_doc (find (collection d c) (default [] q))), w) /\
  get_documents c q (Some 0%Z) w =
    (Ok (map serialize_doc (find (collection d c) (default [] q))), w).
Proof.
  intros Hdb. repeat split.
  - intros ->. apply find_all.
  - intros n Hn. apply Z.eqb_neq in Hn.
    exists (map serialize_doc (cursor_limit (find (collection d c) (default [] q)) n)).
    split; [rewrite (get_documents_run w d c q _ Hdb); cbn zeta; now rewrite Hn|].
    unfold cursor_limit. split.
    + now rewrite firstn_map.
    + now rewrite length_map, length_firstn.
  - now rewrite (get_documents_run w d c q None Hdb).
  - now rewrite (get_documents_run w d c q (Some 0%Z) Hdb).
Qed.


(** * Further properties of the code *)

(** ** The registry *)

Section registry_facts.

Lemma MODEL_REGISTRY_items : MODEL_REGISTRY = list_to_map registry_items.
Proof. reflexivity. Qed.

Lemma registry_items_NoDup : NoDup (map fst registry_items).
Proof. apply (bool_decide_unpack _). vm_compute. exact I. Qed.

Lemma registry_lookup (k : string) (m : Model) :
  MODEL_REGISTRY !! k = Some m <-> In (k, m) registry_items.
Proof.
  rewrite MODEL_REGISTRY_items, <- list_elem_of_In.
  symmetry. apply elem_of_list_to_map. exact registry_items_NoDup.
Qed.

Lemma registry_keys_lower (k : string) (m : Model) :
  In (k, m) registry_items <-> k = lower (__name__ m).
Proof.
  split.
  - cbn. intros Hin.
    repeat (destruct Hin as [[= <- <-]|Hin]; [reflexivity|]). contradiction.
  - intros ->. destruct m; cbn; tauto.
Qed.

(** X1.  [get_model_by_collection] resolves a name exactly when it is the
    name of a model class up to letter case, and then to that class: the
    keys of the registry are the lowercased class names. *)
Theorem registry_resolves_class_names (c : string) (m : Model) :
  get_model_by_collection c = Some m <-> lower c = lower (__name__ m).
Proof.
  unfold get_model_by_collection.
  rewrite registry_lookup, registry_keys_lower. reflexivity.
Qed.

End registry_facts.

Section schema_facts.
Context `{JsonSchema}.

Lemma schema_summary_lookup (k : string) :
  dict_get k schema_summary =
  match MODEL_REGISTRY !! k with
  | Some m => Some (VDict [ ("title", VStr (__name__ m)); ("collection", VStr k);
                            ("schema", model_json_schema m) ])
  | None => None
  end.
Proof.
  destruct (MODEL_REGISTRY !! k) as [m|] eqn:Hk.
  - apply registry_lookup in Hk. cbn in Hk.
    repeat (destruct Hk as [[= <- <-]|Hk]; [reflexivity|]). contradiction.
  - apply dict_get_None_keys. intros Hin.
    assert (Hsome : exists m, In (k, m) registry_items).
    { cbn in Hin. cbn.
      repeat (destruct Hin as [<-|Hin]; [eexists; tauto|]). contradiction. }
    destruct Hsome as [m Hm]. apply registry_lookup in Hm. congruence.
Qed.

(** X2.  [schema_summary] has one entry per registered model, and it
    describes exactly the collections the routes serve: a name the registry
    resolves has, under its lowercase form, the entry with the model's
    class name as title, that key as collection and the model's JSON
    schema; a name it does not resolve has none. *)
Theorem schema_summary_describes_served_collections (c : string) :
  length schema_summary = length registry_items /\
  (get_model_by_collection c = None -> dict_get (lower c) schema_summary = None) /\
  (forall m, get_model_by_collection c = Some m ->
     dict_get (lower c) schema_summary =
     Some (VDict [ ("title", VStr (__name__ m)); ("collection", VStr (lower c));
                   ("schema", model_json_schema m) ])).
Proof.
  split; [reflexivity|].
  unfold get_model_by_collection. rewrite schema_summary_lookup.
  split.
  - now intros ->.
  - now intros m ->.
Qed.

End schema_facts.

Section route_facts.
Context `{Repr} `{Pydantic}.

(** X3.  On every one of the five collection routes, a name the registry
    does not know is answered 404 "Unknown collection" before anything
    else happens: the world is as it was. *)
Theorem unknown_collection_is_404_on_every_route (r : FastAPI.request) (w : World) :
  get_model_by_collection (FastAPI.path_collection r) = None ->
  FastAPI.route r w = (Raise (HTTPException 404 "Unknown collection"), w).
Proof.
  intros Hnone.
  destruct r as [c limit | c doc_id | c payload | c doc_id payload | c doc_id];
    cbn [FastAPI.route FastAPI.path_collection] in *;
    unfold Main.list_documents, Main.get_document, Main.create, Main.update, Main.delete;
    now rewrite Hnone.
Qed.

Lemma construct_pure model kwargs (w : World) :
  snd (Main.construct model kwargs w) = w.
Proof. unfold Main.construct. now destruct (model_init model kwargs). Qed.

(** X4.  With no database configured, every route on a registered
    collection is answered 500 and leaves the world as it was: the
    adapter's "Database not available" exception, or for a POST whose
    payload fails validation the validation error, which comes first. *)
Theorem no_database_is_500_on_every_route (r : FastAPI.request) (w : World) (m : Model) :
  db w = None ->
  get_model_by_collection (FastAPI.path_collection r) = Some m ->
  FastAPI.status_code (fst (FastAPI.route r w)) = 500%nat /\
  snd (FastAPI.route r w) = w /\
  (fst (FastAPI.route r w) = Raise database_not_available \/
   exists c payload errors,
     r = FastAPI.POST c payload /\
     model_init m payload.(Main.data) = inl errors /\
     fst (FastAPI.route r w) = Raise (ValidationError errors)).
Proof.
  intros Hdb Hm.
  destruct r as [c limit | c doc_id | c payload | c doc_id payload | c doc_id];
    cbn [FastAPI.route FastAPI.path_collection] in *;
    unfold Main.list_documents, Main.get_document, Main.create, Main.update, Main.delete;
    rewrite Hm; unfold bind.
  - destruct (no_database w c "" [] (inr []) None (Some (default 100 limit)) Hdb)
      as (_ & -> & _). repeat split. now left.
  - destruct (no_database w c doc_id [] (inr []) None None Hdb) as (_ & _ & -> & _).
    repeat split. now left.
  - unfold Main.construct.
    destruct (model_init m (Main.data payload)) as [errors|dump] eqn:Hinit; cbn [raise ret].
    + repeat split. right. now exists c, payload, errors.
    + destruct (no_database w c "" [] (inl (mk_BaseModel m dump)) None None Hdb) as (-> & _).
      repeat split. now left.
  - destruct (no_database w c doc_id [] (inr []) None None Hdb) as (_ & _ & -> & _).
    repeat split. now left.
  - destruct (no_database w c doc_id [] (inr []) None None Hdb) as (_ & _ & _ & _ & ->).
    repeat split. now left.
Qed.

(** X5.  Listing and fetching never change the world, whatever they
    return or raise: neither the adapter's [get_documents] and
    [get_document_by_id] nor the two GET handlers. *)
Theorem reads_leave_the_world_alone (w : World) (c doc_id : string)
    (q : option dict) (limit : option Z) :
  snd (get_documents c q limit w) = w /\
  snd (get_document_by_id c doc_id w) = w /\
  snd (Main.list_documents c limit w) = w /\
  snd (Main.get_document c doc_id w) = w.
Proof.
  assert (Hlist : snd (get_documents c q limit w) = w /\
                  snd (get_documents c None limit w) = w).
  { unfold get_documents, bind, require_db. now destruct (db w). }
  assert (Hget : snd (get_document_by_id c doc_id w) = w).
  { destruct (get_document_by_id c doc_id w) as [r w'] eqn:Hg.
    now apply get_document_by_id_pure in Hg. }
  destruct Hlist as [Hlist Hlist'].
  split; [exact Hlist|]. split; [exact Hget|]. split.
  - unfold Main.list_documents.
    destruct (get_model_by_collection c); [|reflexivity].
    unfold bind. destruct (get_documents c None limit w) as [[docs|e] w']; exact Hlist'.
  - unfold Main.get_document.
    destruct (get_model_by_collection c); [|reflexivity].
    unfold bind. destruct (get_document_by_id c doc_id w) as [[[doc|]|e] w']; cbn [snd] in *;
      try exact Hget.
    destruct (dict_truthy doc); exact Hget.
Qed.

End route_facts.

(** ** Identifiers *)

Section id_facts.
Context `{Repr}.

Lemma hex_value_lower (c : ascii) : hex_value (ascii_lower c) = hex_value c.
Proof. destruct c as [[] [] [] [] [] [] [] []]; reflexivity. Qed.

Lemma is_space_lower (c : ascii) : is_space (ascii_lower c) = is_space c.
Proof. destruct c as [[] [] [] [] [] [] [] []]; reflexivity. Qed.

(** Where the text has no byte 226, [lower] goes character by character. *)
Lemma lower_cons (c : ascii) (r : string) :
  c <> "226"%char -> lower (String c r) = String (ascii_lower c) (lower r).
Proof.
  intros Hc. cbn [lower].
  destruct r as [|c1 [|c2 r']]; try reflexivity.
  destruct (Ascii.eqb c "226") eqn:E; [|reflexivity].
  apply Ascii.eqb_eq in E. contradiction.
Qed.

(** Where it has one, the lowercase has a character that is no digit. *)
Lemma lower_keeps_bad_upto (n : nat) : forall s,
  (String.length s <= n)%nat ->
  In "226"%char (list_ascii_of_string s) ->
  exists bad, In bad (list_ascii_of_string (lower s)) /\
              hex_value bad = None /\ is_space bad = false.
Proof.
  induction n as [|n IH]; intros s Hlen Hin.
  - destruct s; [destruct Hin | cbn in Hlen; lia].
  - destruct s as [|c r]; [destruct Hin|].
    cbn [String.length] in Hlen.
    assert (Hrest : In "226"%char (list_ascii_of_string r) ->
              exists bad, In bad (list_ascii_of_string (String (ascii_lower c) (lower r))) /\
                          hex_value bad = None /\ is_space bad = false).
    { intros Hr. destruct (IH r) as (bad & Hbad & Hprops); [lia | exact Hr |].
      exists bad. split; [right; exact Hbad | exact Hprops]. }
    destruct (Ascii.eqb c "226") eqn:E.
    + apply Ascii.eqb_eq in E. subst c. cbn [lower].
      destruct r as [|c1 [|c2 r']];
        try (exists "226"%char; split; [left; reflexivity | split; reflexivity]).
      cbn [Ascii.eqb Bool.eqb andb].
      destruct (Ascii.eqb c1 "132" && Ascii.eqb c2 "170").
      * exists "k"%char. split; [left; reflexivity | split; reflexivity].
      * exists "226"%char. split; [left; reflexivity | split; reflexivity].
    + apply Ascii.eqb_neq in E. rewrite (lower_cons c r E).
      cbn [list_ascii_of_string] in Hin. destruct Hin as [Hc|Hr]; [congruence|].
      now apply Hrest.
Qed.

Lemma fromhex_lower_upto (n : nat) : forall s, (String.length s <= n)%nat ->
  ~ In "226"%char (list_ascii_of_string s) ->
  String.length (lower s) = String.length s /\
  forall count acc, fromhex count acc (lower s) = fromhex count acc s.
Proof.
  induction n as [|n IH]; intros s Hlen Hplain.
  - destruct s; [split; reflexivity | cbn in Hlen; lia].
  - destruct s as [|c r]; [split; reflexivity|].
    cbn [String.length] in Hlen. cbn [list_ascii_of_string] in Hplain.
    assert (Hc : c <> "226"%char) by (intros ->; apply Hplain; now left).
    assert (Hr : ~ In "226"%char (list_ascii_of_string r))
      by (intros Hin; apply Hplain; now right).
    rewrite (lower_cons c r Hc).
    destruct (IH r) as [Hlength Hread]; [lia | exact Hr |].
    split; [cbn [String.length]; now rewrite Hlength|].
    intros count acc. cbn [fromhex]. rewrite is_space_lower, hex_value_lower.
    destruct (is_space c); [apply Hread|].
    destruct (hex_value c); [|now destruct (lower r), r].
    destruct r as [|c' r']; [reflexivity|].
    cbn [list_ascii_of_string] in Hr.
    assert (Hc' : c' <> "226"%char) by (intros ->; apply Hr; now left).
    rewrite (lower_cons c' r' Hc'). rewrite hex_value_lower.
    destruct (hex_value c'); [|reflexivity].
    apply (IH r'); [cbn [String.length] in Hlen; lia|].
    intros Hin; apply Hr; now right.
Qed.

Lemma ObjectId_of_str_lower (s : string) : ObjectId_of_str (lower s) = ObjectId_of_str s.
Proof.
  destruct (in_dec ascii_dec "226"%char (list_ascii_of_string s)) as [Hin|Hplain].
  - rewrite (ObjectId_of_str_rejects s).
    2:{ right. exists "226"%char. split; [exact Hin | split; reflexivity]. }
    apply ObjectId_of_str_rejects. right.
    now apply (lower_keeps_bad_upto (String.length s)).
  - destruct (fromhex_lower_upto (String.length s) s (le_n _) Hplain) as [Hlength Hread].
    unfold ObjectId_of_str. now rewrite Hlength, Hread.
Qed.

(** X13.  Document identifiers are case-insensitive: an identifier and its
    lowercase form make [get_document_by_id], [update_document] and
    [delete_document] behave identically. *)
Theorem identifiers_ignore_case (w : World) (c doc_id : string) (data : dict) :
  get_document_by_id c (lower doc_id) w = get_document_by_id c doc_id w /\
  update_document c (lower doc_id) data w = update_document c doc_id data w /\
  delete_document c (lower doc_id) w = delete_document c doc_id w.
Proof.
  unfold get_document_by_id, update_document, delete_document.
  now rewrite ObjectId_of_str_lower.
Qed.

Lemma digit_char_plain (d : N) (r : string) :
  (d < 16)%N -> lower (String (digit_char d) r) = String (digit_char d) (lower r).
Proof.
  intros Hd.
  assert (Hc : In d [0;1;2;3;4;5;6;7;8;9;10;11;12;13;14;15]%N) by (simpl; lia).
  simpl in Hc.
  repeat (destruct Hc as [<-|Hc]; [now rewrite lower_cons by discriminate|]).
  contradiction.
Qed.

Lemma lower_digits16_app (k : nat) : forall n r,
  lower (String.append (digits 16 k n) r) = String.append (digits 16 k n) (lower r).
Proof.
  induction k as [|k IH]; intros n r; [reflexivity|].
  cbn [digits]. rewrite !append_assoc, IH.
  change (String.append (String (digit_char (n mod 16)%N) EmptyString) r)
    with (String (digit_char (n mod 16)%N) r).
  now rewrite digit_char_plain by (apply N.mod_lt; lia).
Qed.

Lemma lower_digits16 (k : nat) (n : N) : lower (digits 16 k n) = digits 16 k n.
Proof.
  pose proof (lower_digits16_app k n EmptyString) as Happ.
  now rewrite !append_empty_r in Happ.
Qed.

(** X14.  For a payload without [_id], the identifier [create_document]
    returns is the generated ObjectId as 24 lowercase hexadecimal digits,
    which [ObjectId(...)] parses back to the same identifier. *)
Theorem created_id_is_an_ObjectId (w w' : World) (c : string)
    (data : BaseModel + dict) (id : string) :
  dict_get "_id" (_to_dict data) = None ->
  create_document c data w = (Ok id, w') ->
  String.length id = 24%nat /\
  lower id = id /\
  exists oid, ObjectId_of_str id = Some oid /\ ObjectId_str oid = id /\
              oid = (oid_source w (oids_drawn w) mod 2 ^ 96)%N.
Proof.
  intros H_id Hcreate.
  destruct (db w) as [d|] eqn:Hdb.
  2:{ destruct (no_database w c "" [] data None None Hdb) as (Hraise & _).
      rewrite Hraise in Hcreate. discriminate. }
  rewrite (create_document_run w d c data Hdb) in Hcreate.
  destruct w as [wdb clk tk src drawn]. cbn [db oid_source oids_drawn] in *. subst wdb.
  unfold bind, insert_one, bind in Hcreate.
  rewrite dict_get_stamped, H_id in Hcreate by discriminate.
  cbn [tick new_ObjectId ret is_list bson db clock ticks oid_source oids_drawn] in Hcreate.
  destruct (existsb _ _); [cbv [raise] in Hcreate; discriminate|].
  cbn [set_db ret str] in Hcreate. injection Hcreate as <- _.
  split; [apply digits_length|]. split; [apply lower_digits16|].
  exists (src drawn mod 2 ^ 96)%N. split; [|split; reflexivity].
  rewrite ObjectId_str_roundtrip. now rewrite N.Div0.mod_mod.
Qed.

End id_facts.

(** ** Serialisation *)

Section serialize_facts.
Context `{Repr}.

Lemma render_items_idempotent (d : dict) :
  let f := fun kv : string * value =>
             match kv with
             | (k, VDatetime v) => (k, VStr (isoformat v))
             | _ => kv
             end in
  map f (map f d) = map f d.
Proof.
  cbn zeta. induction d as [|[k v] d IH]; [reflexivity|].
  cbn [map]. rewrite IH. now destruct v.
Qed.

(** X15.  [serialize_doc] is idempotent: serialising a serialised document
    changes nothing. *)
Theorem serialize_doc_idempotent (doc : dict) :
  serialize_doc (serialize_doc doc) = serialize_doc doc.
Proof.
  destruct doc as [|item doc]; [reflexivity|].
  assert (Hshape : exists d1 : dict,
             d1 <> [] /\
             (dict_get "_id" d1 = None \/ dict_get "_id" d1 = Some VNone) /\
             serialize_doc (item :: doc) =
             map (fun kv : string * value =>
                    match kv with
                    | (k, VDatetime v) => (k, VStr (isoformat v))
                    | _ => kv
                    end) d1).
  { unfold serialize_doc. cbn [dict_truthy negb].
    destruct (dict_get "_id" (item :: doc)) as [v|] eqn:Hid.
    - destruct (is_None v) eqn:Hv.
      + exists (item :: doc). split; [discriminate|]. split; [|reflexivity].
        right. destruct v; try discriminate. exact Hid.
      + eexists. split; [|split; [|reflexivity]].
        * intros Hempty.
          assert (Hget : dict_get "id" (dict_del "_id" (dict_set "id" (VStr (str v)) (item :: doc)))
                         = Some (VStr (str v))).
          { rewrite dict_get_del_ne by discriminate. apply dict_get_set_eq. }
          rewrite Hempty in Hget. discriminate.
        * left. apply dict_get_del_eq.
    - exists (item :: doc). split; [discriminate|]. split; [left; exact Hid | reflexivity]. }
  destruct Hshape as (d1 & Hne & Hid & ->).
  unfold serialize_doc at 1.
  assert (Htruthy : dict_truthy (map (fun kv : string * value =>
                    match kv with
                    | (k, VDatetime v) => (k, VStr (isoformat v))
                    | _ => kv
                    end) d1) = true).
  { destruct d1; [contradiction | reflexivity]. }
  rewrite Htruthy. cbn [negb].
  rewrite dict_get_render_items.
  destruct Hid as [-> | ->]; cbn [option_map render is_None];
    apply render_items_idempotent.
Qed.

End serialize_facts.

(** ** The store under the adapter *)

Section store_more.
Context `{Repr}.

Lemma find_app (a b : list dict) q : find (a ++ b) q = (find a q ++ find b q)%list.
Proof. unfold find. apply List.filter_app. Qed.

Lemma existsb_matches_find (docs : list dict) q :
  existsb (matches q) docs = negb (Nat.eqb (length (find docs q)) 0).
Proof.
  unfold find. induction docs as [|x docs IH]; [reflexivity|].
  cbn [existsb List.filter]. destruct (matches q x); [reflexivity | exact IH].
Qed.

Lemma find_one_existsb (docs : list dict) q :
  match find_one docs q with Some _ => true | None => false end =
  existsb (matches q) docs.
Proof.
  unfold find_one, find. induction docs as [|x docs IH]; [reflexivity|].
  cbn [existsb List.filter]. destruct (matches q x); [reflexivity | exact IH].
Qed.

Lemma update_first_count (docs : list dict) q fields :
  snd (update_first docs q fields) = if existsb (matches q) docs then 1%nat else 0%nat.
Proof.
  induction docs as [|x docs IH]; [reflexivity|].
  cbn [update_first existsb]. destruct (matches q x); [reflexivity|].
  destruct (update_first docs q fields) as [rest n]. exact IH.
Qed.

Lemma delete_first_count (docs : list dict) q :
  snd (delete_first docs q) = if existsb (matches q) docs then 1%nat else 0%nat.
Proof.
  induction docs as [|x docs IH]; [reflexivity|].
  cbn [delete_first existsb]. destruct (matches q x); [reflexivity|].
  destruct (delete_first docs q) as [rest n]. exact IH.
Qed.

Lemma update_fields_no_id (w : World) (data : dict) :
  dict_get "_id" (update_fields w data) = None.
Proof.
  unfold update_fields. rewrite dict_get_set_ne by discriminate.
  rewrite (dict_get_filter_keys (fun k => negb (existsb (String.eqb k) protected_keys))).
  reflexivity.
Qed.

Lemma update_first_ids (docs : list dict) q fields :
  dict_get "_id" fields = None ->
  ids (fst (update_first docs q fields)) = ids docs.
Proof.
  intros Hf. unfold ids. induction docs as [|x docs IH]; [reflexivity|].
  cbn [update_first]. destruct (matches q x).
  - cbn [fst map]. now rewrite dict_get_apply_set_other.
  - destruct (update_first docs q fields) as [rest n]. cbn [fst map] in *. now rewrite IH.
Qed.

(** Matching an [_id] query only looks at the [_id]. *)
Lemma matches_id_only v (a b : dict) :
  dict_get "_id" a = dict_get "_id" b ->
  matches [("_id", v)] a = matches [("_id", v)] b.
Proof. unfold matches. cbn [forallb fst snd]. now intros ->. Qed.

Lemma find_ids v (a b : list dict) :
  ids a = ids b -> length (find a [("_id", v)]) = length (find b [("_id", v)]).
Proof.
  unfold ids, find. revert b. induction a as [|x a IH]; intros [|y b] Hab; try discriminate.
  - reflexivity.
  - cbn [map] in Hab. injection Hab as Hxy Hab.
    cbn [List.filter]. rewrite (matches_id_only v x y Hxy).
    destruct (matches [("_id", v)] y); cbn [length]; now rewrite (IH b Hab).
Qed.

Lemma delete_first_find_le (docs : list dict) q q' :
  (length (find (fst (delete_first docs q)) q') <= length (find docs q'))%nat.
Proof.
  unfold find. induction docs as [|x docs IH]; [reflexivity|].
  cbn [delete_first]. destruct (matches q x).
  - cbn [fst List.filter]. destruct (matches q' x); cbn [length]; lia.
  - destruct (delete_first docs q) as [rest n]. cbn [fst List.filter] in *.
    destruct (matches q' x); cbn [length]; lia.
Qed.

Lemma unique_ids_write (d : MongoDatabase) c docs :
  unique_ids d ->
  (forall oid, (length (find docs [("_id", VObjectId oid)]) <= 1)%nat) ->
  unique_ids (<[c := docs]> d).
Proof.
  intros Hd Hdocs c' oid. destruct (String.eqb_spec c c') as [<-|Hne].
  - rewrite collection_insert_eq. apply Hdocs.
  - rewrite collection_insert_ne by exact Hne. apply Hd.
Qed.

Lemma matches_ObjectId_inv (v : value) (oid : ObjectId) (doc : dict) :
  dict_get "_id" doc = Some v ->
  matches [("_id", VObjectId oid)] doc = true -> v = VObjectId oid.
Proof.
  intros Hv Hm. apply matches_id_inv in Hm. congruence.
Qed.

Lemma preserves_ret (I : World -> Prop) {A} (a : A) : preserves I (ret a).
Proof. now intros w Hw. Qed.

Lemma preserves_raise (I : World -> Prop) {A} e : preserves I (@raise A e).
Proof. now intros w Hw. Qed.

Lemma preserves_bind (I : World -> Prop) {A B} (m : M A) (k : A -> M B) :
  preserves I m -> (forall a, preserves I (k a)) -> preserves I (bind m k).
Proof.
  intros Hm Hk w Hw. unfold bind. specialize (Hm w Hw).
  destruct (m w) as [[a|e] w']; cbn [snd] in *; [now apply Hk | exact Hm].
Qed.

Lemma unique_create_document c data : preserves world_unique_ids (create_document c data).
Proof.
  intros w Hw. destruct (db w) as [d|] eqn:Hdb.
  2:{ destruct (no_database w c "" [] data None None Hdb) as (-> & _). exact Hw. }
  rewrite (create_document_run w d c data Hdb).
  unfold world_unique_ids in Hw. rewrite Hdb in Hw.
  destruct w as [wdb clk tk src drawn]. cbn [db] in Hdb. subst wdb.
  unfold bind.
  destruct (insert_one d c _ _) as [[_id|e] w1] eqn:Hins; cbn [ret snd].
  - apply insert_one_inv in Hins as (Hfresh & _ & Hdb').
    unfold world_unique_ids. rewrite Hdb'.
    apply unique_ids_write; [exact Hw|]. intros oid.
    rewrite find_app. rewrite length_app.
    set (stored := bson_doc _).
    destruct (matches [("_id", VObjectId oid)] stored) eqn:Hm.
    + assert (Hid : bson _id = VObjectId oid).
      { apply (matches_ObjectId_inv _ oid stored); [|exact Hm].
        unfold stored. rewrite dict_get_bson_doc. cbn. reflexivity. }
      rewrite Hid in Hfresh. rewrite Hfresh. unfold find. cbn [List.filter].
      rewrite Hm. cbn. lia.
    + unfold find at 2. cbn [List.filter]. rewrite Hm. cbn [length].
      specialize (Hw c oid). lia.
  - unfold world_unique_ids.
    assert (Hdb' : db w1 = Some d).
    { unfold insert_one, bind, tick in Hins.
      cbn [db clock ticks oid_source oids_drawn] in Hins.
      destruct (dict_get "_id" _) as [v|];
        cbn [ret new_ObjectId is_list db clock ticks oid_source oids_drawn] in Hins.
      - destruct (is_list v); [|destruct (existsb _ _)]; cbv [raise] in Hins;
          cbn [set_db ret] in Hins; try discriminate; now injection Hins as _ <-.
      - destruct (existsb _ _); cbv [raise] in Hins;
          cbn [set_db ret] in Hins; try discriminate; now injection Hins as _ <-. }
    now rewrite Hdb'.
Qed.

Lemma unique_update_document c doc_id data :
  preserves world_unique_ids (update_document c doc_id data).
Proof.
  intros w Hw. destruct (db w) as [d|] eqn:Hdb.
  2:{ destruct (no_database w c doc_id data (inr []) None None Hdb) as (_ & _ & _ & -> & _).
      exact Hw. }
  destruct (ObjectId_of_str doc_id) as [oid|] eqn:Hid.
  2:{ unfold update_document, bind, require_db. rewrite Hdb, Hid. exact Hw. }
  rewrite (update_document_run w d c doc_id oid data Hdb Hid).
  unfold world_unique_ids in *. rewrite Hdb in Hw.
  pose proof (update_first_ids (collection d c) [("_id", VObjectId oid)]
                (update_fields w data) (update_fields_no_id w data)) as Hids.
  destruct (update_first _ _ _) as [docs [|n]]; cbn [snd fst] in *.
  - unfold tick. cbn [db]. now rewrite Hdb.
  - unfold write, tick. cbn [db]. rewrite Hdb. cbn [db].
    apply unique_ids_write; [exact Hw|]. intros o.
    rewrite (find_ids (VObjectId o) docs (collection d c) Hids). apply Hw.
Qed.

Lemma unique_delete_document c doc_id :
  preserves world_unique_ids (delete_document c doc_id).
Proof.
  intros w Hw. destruct (db w) as [d|] eqn:Hdb.
  2:{ destruct (no_database w c doc_id [] (inr []) None None Hdb) as (_ & _ & _ & _ & ->).
      exact Hw. }
  destruct (ObjectId_of_str doc_id) as [oid|] eqn:Hid.
  2:{ unfold delete_document, bind, require_db. rewrite Hdb, Hid. exact Hw. }
  rewrite (delete_document_run w d c doc_id oid Hdb Hid).
  unfold world_unique_ids in *. rewrite Hdb in Hw.
  pose proof (delete_first_find_le (collection d c) [("_id", VObjectId oid)]) as Hle.
  destruct (delete_first _ _) as [docs [|n]]; cbn [snd fst] in *.
  - now rewrite Hdb.
  - unfold write. rewrite Hdb. cbn [db].
    apply unique_ids_write; [exact Hw|]. intros o.
    specialize (Hle [("_id", VObjectId o)]). specialize (Hw c o). lia.
Qed.

Lemma unique_reads c doc_id q limit :
  preserves world_unique_ids (get_documents c q limit) /\
  preserves world_unique_ids (get_document_by_id c doc_id).
Proof.
  split; intros w Hw.
  - unfold get_documents, bind, require_db. now destruct (db w).
  - destruct (get_document_by_id c doc_id w) as [r w'] eqn:Hg.
    apply get_document_by_id_pure in Hg as ->. exact Hw.
Qed.

End store_more.

Section invariant.
Context `{Repr} `{Pydantic}.

Lemma preserves_construct I model kwargs : preserves I (Main.construct model kwargs).
Proof.
  unfold Main.construct.
  destruct (model_init model kwargs); [apply preserves_raise | apply preserves_ret].
Qed.

(** Every route keeps the identifiers of every collection distinct. *)
Lemma preserves_route (r : FastAPI.request) :
  preserves world_unique_ids (FastAPI.route r).
Proof.
  destruct r as [c limit | c doc_id | c payload | c doc_id payload | c doc_id];
    cbn [FastAPI.route].
  - unfold Main.list_documents.
    destruct (get_model_by_collection c); [|apply preserves_raise].
    apply preserves_bind; [apply (unique_reads c "" None) | intros; apply preserves_ret].
  - unfold Main.get_document.
    destruct (get_model_by_collection c); [|apply preserves_raise].
    apply preserves_bind; [apply (unique_reads c doc_id None None)|].
    intros [doc|]; [|apply preserves_raise].
    destruct (dict_truthy doc); [apply preserves_ret | apply preserves_raise].
  - unfold Main.create.
    destruct (get_model_by_collection c); [|apply preserves_raise].
    apply preserves_bind; [apply preserves_construct|]. intros obj.
    apply preserves_bind; [apply unique_create_document | intros; apply preserves_ret].
  - unfold Main.update.
    destruct (get_model_by_collection c); [|apply preserves_raise].
    apply preserves_bind; [apply (unique_reads c doc_id None None)|].
    intros [existing|]; [|apply preserves_raise].
    destruct (dict_truthy existing); cbn [negb]; [|apply preserves_raise].
    apply preserves_bind; [apply preserves_construct|]. intros obj.
    apply preserves_bind; [apply unique_update_document|].
    intros [|]; [apply preserves_ret | apply preserves_raise].
  - unfold Main.delete.
    destruct (get_model_by_collection c); [|apply preserves_raise].
    apply preserves_bind; [apply unique_delete_document|].
    intros [|]; [apply preserves_ret | apply preserves_raise].
Qed.


Lemma unique_ids_empty : unique_ids ∅.
Proof. intros c oid. unfold collection. rewrite lookup_empty. cbn. lia. Qed.

(** X7.  Identifiers stay unique: if no two documents of a collection
    carry the same ObjectId, that is still so after any route and after any
    of the adapter's three writing operations, whatever their outcome. *)
Theorem identifiers_stay_unique (w : World) :
  world_unique_ids w ->
  (forall r, world_unique_ids (snd (FastAPI.route r w))) /\
  (forall c data, world_unique_ids (snd (create_document c data w))) /\
  (forall c doc_id data, world_unique_ids (snd (update_document c doc_id data w))) /\
  (forall c doc_id, world_unique_ids (snd (delete_document c doc_id w))).
Proof.
  intros Hw. split; [|split; [|split]].
  - intros r. now apply preserves_route.
  - intros c data. now apply unique_create_document.
  - intros c doc_id data. now apply unique_update_document.
  - intros c doc_id. now apply unique_delete_document.
Qed.

End invariant.

Section adapter_more.
Context `{Repr}.

(** The exceptions [create_document] raises, none of them after a write. *)
Lemma create_document_raise_inv (w w' : World) (c : string)
    (data : BaseModel + dict) (e : exn) :
  create_document c data w = (Raise e, w') ->
  db w' = db w /\
  (e = database_not_available /\ db w = None \/
   e = DuplicateKeyError /\ db w <> None \/
   e = WriteError /\ dict_get "_id" (_to_dict data) <> None).
Proof.
  intros Hcreate. destruct (db w) as [d|] eqn:Hdb.
  2:{ destruct (no_database w c "" [] data None None Hdb) as (Hraise & _).
      rewrite Hraise in Hcreate. injection Hcreate as <- <-.
      split; [now rewrite Hdb|]. now left. }
  rewrite (create_document_run w d c data Hdb) in Hcreate.
  destruct w as [wdb clk tk src drawn]. cbn [db] in Hdb. subst wdb.
  unfold bind, insert_one, bind, tick in Hcreate.
  cbn [db clock ticks oid_source oids_drawn] in Hcreate.
  rewrite dict_get_stamped in Hcreate by discriminate.
  destruct (dict_get "_id" (_to_dict data)) as [v|];
    cbn [ret new_ObjectId is_list db clock ticks oid_source oids_drawn] in Hcreate.
  - destruct (is_list v); [|destruct (existsb _ _)]; cbv [raise] in Hcreate;
      cbn [set_db ret] in Hcreate; try discriminate;
      injection Hcreate as <- <-; cbn [db]; (split; [reflexivity|]).
    + right. right. split; [reflexivity | discriminate].
    + right. left. split; [reflexivity | discriminate].
  - destruct (existsb _ _); cbv [raise] in Hcreate;
      cbn [set_db ret] in Hcreate; try discriminate;
      injection Hcreate as <- <-; cbn [db]; (split; [reflexivity|]).
    right. left. split; [reflexivity | discriminate].
Qed.

(** X8.  A created document goes last: after [create_document] returns,
    listing the collection gives the former listing followed by the new
    record, which carries the returned identifier as [id] when the payload
    had no [_id]; the listing of every other collection is unchanged. *)
Theorem create_appends_to_listing (w w' : World) (c : string)
    (data : BaseModel + dict) (id : string) :
  create_document c data w = (Ok id, w') ->
  exists docs r,
    get_documents c None None w = (Ok docs, w) /\
    get_documents c None None w' = (Ok (docs ++ [r])%list, w') /\
    (dict_get "_id" (_to_dict data) = None -> dict_get "id" r = Some (VStr id)) /\
    forall c', c' <> c -> get_documents c' None None w' =
                          (fst (get_documents c' None None w), w').
Proof.
  intros Hcreate.
  apply create_document_inv in Hcreate as (d & _id & Hdb & -> & _ & Hoid & Hdb').
  eexists _, _.
  split; [apply (get_documents_run w d c None None Hdb)|].
  split; [|split].
  - rewrite (get_documents_run w' _ c None None Hdb'). cbn [default].
    rewrite !find_all, collection_insert_eq, map_app. reflexivity.
  - intros H_id. destruct (Hoid H_id) as [o ->].
    apply serialize_doc_renames; [|reflexivity].
    rewrite dict_get_bson_doc. reflexivity.
  - intros c' Hne.
    rewrite (get_documents_run w' _ c' None None Hdb').
    rewrite (get_documents_run w d c' None None Hdb). cbn [default fst].
    rewrite collection_insert_ne by congruence. reflexivity.
Qed.


(** X10.  Where identifiers are unique, a document [delete_document]
    reports deleted is gone: the collection is one document shorter, a
    fetch by the same identifier returns [None] and a second delete returns
    [False]. *)
Theorem deleted_document_is_gone (w w' : World) d (c doc_id : string) :
  db w = Some d ->
  unique_ids d ->
  delete_document c doc_id w = (Ok true, w') ->
  exists d',
    db w' = Some d' /\
    S (length (collection d' c)) = length (collection d c) /\
    present d' c doc_id = false /\
    fst (get_document_by_id c doc_id w') = Ok None /\
    fst (delete_document c doc_id w') = Ok false.
Proof.
  intros Hdb Huniq Hdel.
  destruct (ObjectId_of_str doc_id) as [oid|] eqn:Hid.
  2:{ unfold delete_document, bind, require_db in Hdel.
      rewrite Hdb, Hid in Hdel. discriminate. }
  rewrite (delete_document_run w d c doc_id oid Hdb Hid) in Hdel.
  destruct (find_one (collection d c) [("_id", VObjectId oid)]) as [doc|] eqn:Hf.
  2:{ unfold find_one in Hf.
      destruct (find (collection d c) [("_id", VObjectId oid)]) eqn:Hnone; [|discriminate].
      rewrite (delete_first_none _ _ Hnone) in Hdel. discriminate. }
  destruct (find_one_split _ _ _ Hf) as (docs1 & docs2 & Hsplit & Hm & Hnone).
  rewrite Hsplit, (delete_first_split docs1 docs2 _ doc Hnone Hm) in Hdel.
  injection Hdel as <-.
  assert (Hgone : find (docs1 ++ docs2) [("_id", VObjectId oid)] = []).
  { specialize (Huniq c oid). rewrite Hsplit, find_app in Huniq.
    rewrite find_app, Hnone in *. cbn [app] in *.
    unfold find in Huniq. cbn [List.filter] in Huniq. rewrite Hm in Huniq.
    cbn [length] in Huniq. fold (find docs2 [("_id", VObjectId oid)]) in Huniq.
    destruct (find docs2 _); [reflexivity | cbn in Huniq; lia]. }
  set (d' := <[c := (docs1 ++ docs2)%list]> d).
  assert (Hdb' : db (write c (docs1 ++ docs2)%list w) = Some d').
  { unfold write. now rewrite Hdb. }
  assert (Hpresent : present d' c doc_id = false).
  { unfold present. rewrite Hid. unfold d'. rewrite collection_insert_eq.
    now apply existsb_of_find_none. }
  exists d'. split; [exact Hdb'|]. split.
  { unfold d'. rewrite collection_insert_eq, Hsplit, !length_app. cbn [length]. lia. }
  split; [exact Hpresent|].
  rewrite (get_document_by_id_run _ d' c doc_id Hdb'), Hid.
  rewrite (delete_document_run _ d' c doc_id oid Hdb' Hid).
  unfold d', find_one. rewrite collection_insert_eq, Hgone.
  rewrite (delete_first_none _ _ Hgone). split; reflexivity.
Qed.

(** X12.  [update_document] never adds, removes or reorders documents and
    never changes an [_id]: in every collection the sequence of [_id]s
    after the call is the sequence before it. *)
Theorem update_keeps_documents_in_place (w : World) d (c doc_id : string) (data : dict) :
  db w = Some d ->
  exists d',
    db (snd (update_document c doc_id data w)) = Some d' /\
    forall c', ids (collection d' c') = ids (collection d c').
Proof.
  intros Hdb.
  destruct (ObjectId_of_str doc_id) as [oid|] eqn:Hid.
  2:{ unfold update_document, bind, require_db. rewrite Hdb, Hid. now exists d. }
  rewrite (update_document_run w d c doc_id oid data Hdb Hid).
  pose proof (update_first_ids (collection d c) [("_id", VObjectId oid)]
                (update_fields w data) (update_fields_no_id w data)) as Hids.
  destruct (update_first _ _ _) as [docs [|n]]; cbn [snd fst] in *.
  - exists d. unfold tick. cbn [db]. now rewrite Hdb.
  - exists (<[c := docs]> d). unfold write, tick. cbn [db]. rewrite Hdb. cbn [db].
    split; [reflexivity|]. intros c'.
    destruct (String.eqb_spec c c') as [<-|Hne].
    + now rewrite collection_insert_eq.
    + now rewrite collection_insert_ne.
Qed.

(** X11.  Read your writes: when [update_document] returns for a stored
    document and a payload whose keys are field names, it returns [True]
    and [get_document_by_id] then returns the document with its [id]
    unchanged, its [created_at] as stored, the fresh [updated_at] as text,
    the payload's value for every other field the payload names and the
    stored value for the rest. *)
Theorem update_then_get (w w' : World) d (c doc_id : string) (oid : ObjectId)
    (doc data : dict) (found : bool) :
  db w = Some d ->
  ObjectId_of_str doc_id = Some oid ->
  find_one (collection d c) [("_id", VObjectId oid)] = Some doc ->
  NoDup (keys data) ->
  forallb field_name (keys data) = true ->
  update_document c doc_id data w = (Ok found, w') ->
  found = true /\
  exists r,
    get_document_by_id c doc_id w' = (Ok (Some r), w') /\
    dict_get "id" r = Some (VStr (ObjectId_str oid)) /\
    dict_get "created_at" r = option_map render (dict_get "created_at" doc) /\
    dict_get "updated_at" r = Some (VStr (isoformat (timestamp w 0))) /\
    forall k, ~ In k protected_keys ->
      dict_get k r = option_map render
                       (match dict_get k data with
                        | Some v => Some (bson v)
                        | None => dict_get k doc
                        end).
Proof.
  intros Hdb Hid Hfind Hnd _ Hrun.
  destruct (find_one_split _ _ _ Hfind) as (docs1 & docs2 & Hsplit & Hm & Hnone).
  rewrite (update_document_run w d c doc_id oid data Hdb Hid) in Hrun.
  rewrite Hsplit, (update_first_split docs1 docs2 _ _ doc Hnone Hm) in Hrun.
  injection Hrun as <- <-. split; [reflexivity|].
  set (doc' := apply_set (update_fields w data) doc).
  set (w' := write c (docs1 ++ doc' :: docs2)%list (tick w)).
  assert (Hdb' : db w' = Some (<[c := (docs1 ++ doc' :: docs2)%list]> d)).
  { unfold w', write, tick. cbn [db]. now rewrite Hdb. }
  assert (Hget : forall k, dict_get k doc' =
                   match dict_get k (update_fields w data) with
                   | Some v => Some (bson v)
                   | None => dict_get k doc
                   end).
  { intros k. apply dict_get_apply_set. now apply update_fields_NoDup. }
  assert (H_id : dict_get "_id" doc' = Some (VObjectId oid)).
  { rewrite Hget, update_fields_no_id. now apply matches_id_inv. }
  exists (serialize_doc doc'). split.
  { rewrite (get_document_by_id_run w' _ c doc_id Hdb'), Hid.
    rewrite collection_insert_eq. unfold find_one. rewrite find_app, Hnone.
    unfold find. cbn [app List.filter].
    rewrite (matches_id_only (VObjectId oid) doc' doc)
      by (rewrite H_id; symmetry; now apply matches_id_inv).
    rewrite Hm. reflexivity. }
  split; [now apply (serialize_doc_renames doc' (VObjectId oid))|].
  rewrite !serialize_doc_fields by discriminate.
  rewrite !Hget, !update_fields_get by exact Hnd.
  cbn [String.eqb Ascii.eqb Bool.eqb existsb protected_keys orb option_map render].
  split; [reflexivity|]. split; [reflexivity|].
  intros k Hk.
  assert (k <> "_id" /\ k <> "id" /\ k <> "updated_at") as (? & ? & Hu).
  { repeat split; intros ->; apply Hk; simpl; tauto. }
  rewrite serialize_doc_fields by assumption.
  rewrite Hget, update_fields_get by exact Hnd.
  apply String.eqb_neq in Hu. rewrite Hu.
  destruct (existsb (String.eqb k) protected_keys) eqn:Ex; [|reflexivity].
  exfalso. apply Hk. apply existsb_exists in Ex as [x [Hx Hkx]].
  apply String.eqb_eq in Hkx. now subst.
Qed.

End adapter_more.

Section raising.
Context `{Repr}.

(** The four operations that do not insert raise only for want of a
    database. *)
Lemma adapter_raise_inv (w w' : World) (c doc_id : string)
    (q : option dict) (limit : option Z) (data : dict) (e : exn) :
  get_documents c q limit w = (Raise e, w') \/
  get_document_by_id c doc_id w = (Raise e, w') \/
  update_document c doc_id data w = (Raise e, w') \/
  delete_document c doc_id w = (Raise e, w') ->
  db w = None /\ e = database_not_available /\ w' = w.
Proof.
  intros Hraise. destruct (db w) as [d|] eqn:Hdb.
  - exfalso. destruct Hraise as [Hr|[Hr|[Hr|Hr]]].
    + rewrite (get_documents_run w d c q limit Hdb) in Hr. discriminate.
    + rewrite (get_document_by_id_run w d c doc_id Hdb) in Hr. discriminate.
    + destruct (ObjectId_of_str doc_id) as [oid|] eqn:Hid.
      * rewrite (update_document_run w d c doc_id oid data Hdb Hid) in Hr.
        destruct (update_first _ _ _) as [docs [|n]]; discriminate.
      * unfold update_document, bind, require_db in Hr. rewrite Hdb, Hid in Hr.
        discriminate.
    + destruct (ObjectId_of_str doc_id) as [oid|] eqn:Hid.
      * rewrite (delete_document_run w d c doc_id oid Hdb Hid) in Hr.
        destruct (delete_first _ _) as [docs [|n]]; discriminate.
      * unfold delete_document, bind, require_db in Hr. rewrite Hdb, Hid in Hr.
        discriminate.
  - destruct (no_database w c doc_id data (inr []) q limit Hdb)
      as (_ & Hlist & Hget & Hupd & Hdel).
    rewrite Hlist, Hget, Hupd, Hdel in Hraise.
    destruct Hraise as [Hr|[Hr|[Hr|Hr]]]; injection Hr as <- <-; auto.
Qed.

(** With a database, [update_document] answers by what the collection
    holds. *)
Lemma update_document_result (w : World) d (c doc_id : string) (data : dict) :
  db w = Some d -> fst (update_document c doc_id data w) = Ok (present d c doc_id).
Proof.
  intros Hdb. unfold present.
  destruct (ObjectId_of_str doc_id) as [oid|] eqn:Hid.
  - rewrite (update_document_run w d c doc_id oid data Hdb Hid).
    pose proof (update_first_count (collection d c) [("_id", VObjectId oid)]
                  (update_fields w data)) as Hu.
    destruct (update_first _ _ _) as [docs1 n1]. cbn [snd] in Hu. subst n1.
    now destruct (existsb _ _).
  - unfold update_document, bind, require_db. now rewrite Hdb, Hid.
Qed.

End raising.

Section put_facts.
Context `{Repr} `{Pydantic}.

(** The first half of PUT changes nothing, and raises nothing but the 404s,
    the want of a database and the validation error. *)
Lemma update_check_cases (w : World) (c doc_id : string) (payload : Main.UpdatePayload) :
  exists r, Main.update_check c doc_id payload w = (r, w) /\
    (r = Ok tt \/
     exists e, r = Raise e /\
       (e = Main.unknown_collection \/ e = database_not_available \/
        e = Main.not_found \/ exists errors, e = ValidationError errors)).
Proof.
  unfold Main.update_check.
  destruct (get_model_by_collection c) as [model|];
    [|eexists; split; [reflexivity|]; right; eexists; split; [reflexivity | auto]].
  unfold bind at 1.
  destruct (get_document_by_id c doc_id w) as [[[existing|]|e] w1] eqn:Hget;
    pose proof (get_document_by_id_pure _ _ _ _ _ Hget) as ->.
  - destruct (dict_truthy existing); cbn [negb];
      [|eexists; split; [reflexivity|]; right; eexists; split; [reflexivity | auto]].
    unfold bind, Main.construct.
    destruct (model_init model _) as [errors|dump].
    + eexists; split; [reflexivity|]. right. eexists. split; [reflexivity|].
      do 3 right. now exists errors.
    + eexists; split; [reflexivity|]. left. reflexivity.
  - eexists; split; [reflexivity|]. right. eexists. split; [reflexivity | auto].
  - eexists; split; [reflexivity|]. right. exists e. split; [reflexivity|]. right. left.
    now destruct (adapter_raise_inv w w c doc_id None None [] e
                    (or_intror (or_introl Hget))) as (_ & -> & _).
Qed.


(** The second half of PUT answers by what the collection holds then. *)
Lemma update_write_cases (w : World) (c doc_id : string) (payload : Main.UpdatePayload) :
  match db w with
  | None => Main.update_write c doc_id payload w = (Raise database_not_available, w)
  | Some d =>
      if present d c doc_id
      then Main.update_write c doc_id payload w =
           (Ok (VDict [("ok", VBool true)]),
            snd (update_document c doc_id (Main.data payload) w))
      else Main.update_write c doc_id payload w =
           (Raise (HTTPException 400 "Update failed"),
            snd (update_document c doc_id (Main.data payload) w))
  end.
Proof.
  unfold Main.update_write, bind.
  destruct (db w) as [d|] eqn:Hdb.
  - pose proof (update_document_result w d c doc_id (Main.data payload) Hdb) as Hres.
    destruct (update_document c doc_id (Main.data payload) w) as [r w1].
    cbn [fst snd] in *. subst r. now destruct (present d c doc_id).
  - destruct (no_database w c doc_id (Main.data payload) (inr []) None None Hdb)
      as (_ & _ & _ & Hupd & _).
    now rewrite Hupd.
Qed.


(** X18.  With a database configured and a registered collection, GET and
    DELETE of a document answer 200 when the collection holds a document
    under the identifier and 404 otherwise, a malformed identifier
    included; PUT on an absent document answers 404 "Not found" and leaves
    the world alone. *)
Theorem get_and_delete_answer_by_presence (w : World) d (c doc_id : string) (m : Model) :
  db w = Some d ->
  get_model_by_collection c = Some m ->
  FastAPI.status_code (fst (Main.get_document c doc_id w)) =
    (if present d c doc_id then 200 else 404)%nat /\
  FastAPI.status_code (fst (Main.delete c doc_id w)) =
    (if present d c doc_id then 200 else 404)%nat /\
  (present d c doc_id = false ->
   forall payload, Main.update c doc_id payload w = (Raise Main.not_found, w)).
Proof.
  intros Hdb Hm. unfold present, Main.get_document, Main.delete, Main.update.
  rewrite Hm. unfold bind.
  rewrite (get_document_by_id_run w d c doc_id Hdb).
  destruct (ObjectId_of_str doc_id) as [oid|] eqn:Hid.
  - rewrite (delete_document_run w d c doc_id oid Hdb Hid).
    pose proof (delete_first_count (collection d c) [("_id", VObjectId oid)]) as Hd.
    pose proof (find_one_existsb (collection d c) [("_id", VObjectId oid)]) as Hf.
    destruct (delete_first _ _) as [docs n]. cbn [snd] in Hd. subst n.
    destruct (find_one _ _) as [doc|] eqn:Hfind; rewrite <- Hf.
    + apply find_one_In in Hfind as [_ Hmatch]. apply matches_id_inv in Hmatch.
      destruct (serialize_doc_renames doc _ Hmatch eq_refl) as [_ Hidkey].
      rewrite (dict_truthy_get _ _ _ Hidkey). repeat split. discriminate.
    + repeat split.
  - unfold delete_document, bind, require_db. rewrite Hdb, Hid. repeat split.
Qed.

(** X17.  Every response of the five collection routes has status 200,
    400, 404 or 500, whatever the other requests do meanwhile; 400 is the
    answer of no route but PUT. *)
Theorem routes_answer_200_400_404_or_500 (meanwhile : World -> World)
    (r : FastAPI.request) (w : World) :
  In (FastAPI.status_code (fst (FastAPI.route_amid meanwhile r w)))
     [200; 400; 404; 500]%nat /\
  (FastAPI.status_code (fst (FastAPI.route_amid meanwhile r w)) = 400%nat ->
   exists c doc_id payload, r = FastAPI.PUT c doc_id payload).
Proof.
  assert (Hnot400 : forall s : nat, In s [200; 404; 500]%nat ->
            In s [200; 400; 404; 500]%nat /\ (s = 400%nat -> False)).
  { intros s Hs. cbn in Hs. destruct Hs as [<-|[<-|[<-|[]]]]; cbn; split;
      try tauto; discriminate. }
  assert (Hother : forall m : M value,
            In (FastAPI.status_code (fst (m w))) [200; 404; 500]%nat ->
            In (FastAPI.status_code (fst (m w))) [200; 400; 404; 500]%nat /\
            (FastAPI.status_code (fst (m w)) = 400%nat ->
             exists c doc_id payload, r = FastAPI.PUT c doc_id payload)).
  { intros m Hs. destruct (Hnot400 _ Hs) as [Hin Hno]. split; [exact Hin|].
    intros H400. destruct (Hno H400). }
  destruct r as [c limit | c doc_id | c payload | c doc_id payload | c doc_id];
    cbn [FastAPI.route_amid FastAPI.route].
  - apply Hother. unfold Main.list_documents.
    destruct (get_model_by_collection c); [|cbn; tauto].
    unfold bind. destruct (get_documents _ _ _ w) as [[docs|e] w'] eqn:Hr; [cbn; tauto|].
    assert (e = database_not_available) as ->.
    { eapply (adapter_raise_inv w w' c "" None _ [] e). left. exact Hr. }
    cbn; tauto.
  - apply Hother. unfold Main.get_document.
    destruct (get_model_by_collection c); [|cbn; tauto].
    unfold bind. destruct (get_document_by_id c doc_id w) as [[[doc|]|e] w'] eqn:Hr.
    + destruct (dict_truthy doc); cbn; tauto.
    + cbn; tauto.
    + assert (e = database_not_available) as ->.
      { eapply (adapter_raise_inv w w' c doc_id None None [] e).
        right. left. exact Hr. }
      cbn; tauto.
  - apply Hother. unfold Main.create.
    destruct (get_model_by_collection c) as [model|]; [|cbn; tauto].
    unfold bind at 1, Main.construct.
    destruct (model_init model _) as [errors|dump]; [cbn; tauto|].
    cbn [ret]. unfold bind.
    destruct (create_document c _ w) as [[id|e] w'] eqn:Hr; [cbn; tauto|].
    apply create_document_raise_inv in Hr as (_ & [[-> _] | [[-> _] | [-> _]]]); cbn; tauto.
  - split; [|intros _; now exists c, doc_id, payload].
    unfold FastAPI.put_amid.
    destruct (update_check_cases w c doc_id payload)
      as (r & Hc & [-> | (e & -> & He)]); rewrite Hc.
    + pose proof (update_write_cases (meanwhile w) c doc_id payload) as Hw.
      destruct (db (meanwhile w)) as [d'|].
      * destruct (present d' c doc_id); rewrite Hw; cbn; tauto.
      * rewrite Hw. cbn; tauto.
    + destruct He as [-> | [-> | [-> | [errors ->]]]]; cbn; tauto.
  - apply Hother. unfold Main.delete.
    destruct (get_model_by_collection c); [|cbn; tauto].
    unfold bind. destruct (delete_document c doc_id w) as [[[|]|e] w'] eqn:Hr;
      [cbn; tauto | cbn; tauto |].
    assert (e = database_not_available) as ->.
    { eapply (adapter_raise_inv w w' c doc_id None None [] e).
      do 3 right. exact Hr. }
    cbn; tauto.
Qed.

End put_facts.

(** ** The diagnostic route *)

Section diagnostics.

(** X20.  GET /test always returns the same six keys in the same order,
    with the world unchanged; [backend] is always "Running", and
    [database_url] and [database_name] report only whether the environment
    variables are set: what the connected branch wrote there is
    overwritten. *)
Theorem test_database_reports_environment (p : Main.Probe) (w : World) :
  exists response,
    Main.test_database p w = (Ok (VDict response), w) /\
    keys response = ["backend"; "database"; "database_url"; "database_name";
                     "connection_status"; "collections"] /\
    dict_get "backend" response = Some (VStr "✅ Running") /\
    dict_get "database_url" response =
      Some (VStr (if env_truthy (Main.getenv p "DATABASE_URL")
                  then "✅ Set" else "❌ Not Set")) /\
    dict_get "database_name" response =
      Some (VStr (if env_truthy (Main.getenv p "DATABASE_NAME")
                  then "✅ Set" else "❌ Not Set")).
Proof.
  unfold Main.test_database. eexists. split; [reflexivity|].
  destruct (Main.import_db p); [destruct (db w) as [d|]|..];
    [destruct (Main.list_collection_names p d)|..]; repeat split.
Qed.


(** X22.  When [db] is what the module initialisation made of the
    environment GET /test reads, the diagnostic reports "Connected" exactly
    when it reports both variables set; otherwise it reports the database
    as not initialised, with no collections. *)
Theorem test_database_agrees_with_startup (p : Main.Probe) (w : World)
    (client : string -> string -> MongoDatabase) :
  db w = initial_db (Main.getenv p) client ->
  Main.import_db p = Main.Imported ->
  exists response,
    Main.test_database p w = (Ok (VDict response), w) /\
    (dict_get "connection_status" response = Some (VStr "Connected") <->
     dict_get "database_url" response = Some (VStr "✅ Set") /\
     dict_get "database_name" response = Some (VStr "✅ Set")) /\
    (dict_get "connection_status" response = Some (VStr "Not Connected") ->
     dict_get "database" response = Some (VStr "⚠️  Available but not initialized") /\
     dict_get "collections" response = Some (VList [])).
Proof.
  intros Hdb Himp. unfold Main.test_database. rewrite Himp, Hdb.
  unfold initial_db.
  destruct (env_truthy (Main.getenv p "DATABASE_URL")),
           (env_truthy (Main.getenv p "DATABASE_NAME")); cbn [andb].
  - destruct (Main.list_collection_names p _); eexists; (split; [reflexivity|]);
      (split; [split; [now split | reflexivity] | discriminate]).
  - eexists. split; [reflexivity|].
    split; [split; [discriminate | intros [_ Hn]; discriminate] | now split].
  - eexists. split; [reflexivity|].
    split; [split; [discriminate | intros [Hn _]; discriminate] | now split].
  - eexists. split; [reflexivity|].
    split; [split; [discriminate | intros [Hn _]; discriminate] | now split].
Qed.

End diagnostics.

Section post_get.
Context `{Repr} `{Pydantic}.

(** X23.  POST then GET: when POST returns, its body is [{"id": id}], and
    GET of that identifier on the same collection returns the validated
    instance (pydantic's dump, not the raw payload) followed by
    [created_at], [updated_at] and [id]. *)
Theorem posted_document_is_served (w w' : World) (c : string) (payload : Main.CreatePayload)
    (body : value) :
  (forall m dump, model_init m (Main.data payload) = inr dump ->
                  has_shape (model_type m) (VDict dump) = true) ->
  FastAPI.route (FastAPI.POST c payload) w = (Ok body, w') ->
  exists m dump id,
    get_model_by_collection c = Some m /\
    model_init m (Main.data payload) = inr dump /\
    body = VDict [("id", VStr id)] /\
    FastAPI.route (FastAPI.GET_one c id) w' =
      (Ok (VDict (dump ++ [ ("created_at", VStr (isoformat (timestamp w 0)));
                            ("updated_at", VStr (isoformat (timestamp w 1)));
                            ("id", VStr id) ])%list), w').
Proof.
  intros Hshaped Hpost. cbn [FastAPI.route] in *. unfold Main.create in Hpost.
  destruct (get_model_by_collection c) as [m|] eqn:Hm; [|discriminate].
  unfold bind at 1, Main.construct in Hpost.
  destruct (model_init m (Main.data payload)) as [errors|dump] eqn:Hinit; [discriminate|].
  cbn [ret] in Hpost. unfold bind in Hpost.
  destruct (create_document c _ w) as [[id|e] w1] eqn:Hcreate; [|discriminate].
  cbn [ret] in Hpost. injection Hpost as <- <-.
  exists m, dump, id. split; [reflexivity|]. split; [exact Hinit|]. split; [reflexivity|].
  specialize (Hshaped m dump Hinit).
  pose proof (model_dump_no_protected m dump) as Hkeys.
  assert (H_id : dict_get "_id" dump = None) by (apply Hkeys; simpl; tauto).
  assert (Hid : dict_get "id" dump = None) by (apply Hkeys; simpl; tauto).
  assert (Hc : dict_get "created_at" dump = None) by (apply Hkeys; simpl; tauto).
  assert (Hu : dict_get "updated_at" dump = None) by (apply Hkeys; simpl; tauto).
  apply model_dump_items in Hshaped as [_ Hplain].
  apply create_document_inv in Hcreate as (d & _id & Hdb & -> & Hfresh & Hoid & Hdb').
  destruct (Hoid H_id) as [o ->]. clear Hoid.
  cbn [_to_dict model_dump] in Hdb'. cbn [bson] in Hfresh.
  unfold Main.get_document. rewrite Hm. unfold bind.
  rewrite (get_document_by_id_run w1 _ c _ Hdb').
  cbn [str]. rewrite ObjectId_str_roundtrip, N.Div0.mod_mod.
  rewrite collection_insert_eq.
  unfold find_one. rewrite find_app, Hfresh.
  rewrite dict_del_fresh by (rewrite dict_get_stamped by discriminate; exact H_id).
  rewrite stamped_fresh by assumption.
  unfold find. cbn [bson_doc map bson app List.filter].
  rewrite matches_id_ObjectId. cbn [head].
  rewrite serialize_doc_stored by assumption.
  destruct dump; reflexivity.
Qed.

End post_get.

(** * The claims at sample inputs *)

Import Strict.

Lemma create_then_get_roundtrip_witness :
  get_document_by_id "title" Sample.hero_id Sample.hero_world =
  (Ok (Some Sample.hero_returned), Sample.hero_world).
Proof.
  apply (create_then_get_roundtrip Sample.empty_world Sample.hero_world "title" Title
           Sample.hero Sample.hero_id); reflexivity.
Defined.

Lemma update_rejects_invalid_merge_witness :
  Main.update "title" Sample.hero_id Sample.purple Sample.hero_world =
    (Raise (ValidationError [("rarity", "Input is not valid")]), Sample.hero_world) /\
  Main.get_document "title" Sample.hero_id
    (snd (Main.update "title" Sample.hero_id Sample.purple Sample.hero_world)) =
    (Ok (VDict Sample.hero_returned), Sample.hero_world).
Proof.
  apply (update_rejects_invalid_merge Sample.hero_world Sample.hero_world "title"
           Sample.hero_id Sample.purple Title Sample.hero_returned); reflexivity.
Defined.



Lemma create_invalid_payload_status_witness :
  FastAPI.route (FastAPI.POST "item" Sample.bad_item) Sample.empty_world =
    (Raise (ValidationError [("name", "Field required"); ("item_type", "Input is not valid")]),
     Sample.empty_world) /\
  FastAPI.status_code
    (fst (FastAPI.route (FastAPI.POST "item" Sample.bad_item) Sample.empty_world)) = 500%nat.
Proof.
  apply (create_invalid_payload_status Sample.empty_world "item" Sample.bad_item Item);
    reflexivity.
Defined.


Lemma create_document_timestamps_witness :
  exists d d' stored,
    db Sample.empty_world = Some d /\ db Sample.hero_world = Some d' /\
    collection d' "title" = (collection d "title" ++ [stored])%list /\
    dict_get "created_at" stored = Some (VDatetime (timestamp Sample.empty_world 0)) /\
    dict_get "updated_at" stored = Some (VDatetime (timestamp Sample.empty_world 1)) /\
    (dict_get "created_at" stored = dict_get "updated_at" stored <->
     timestamp Sample.empty_world 0 = timestamp Sample.empty_world 1).
Proof.
  apply (create_document_timestamps Sample.empty_world Sample.hero_world "title"
           (inl (mk_BaseModel Title Sample.hero)) Sample.hero_id).
  reflexivity.
Defined.

Lemma list_unknown_collection_404_witness :
  get_model_by_collection "unknowncollection" = None /\
  FastAPI.status_code
    (fst (FastAPI.route (FastAPI.GET_list "unknowncollection" None) Sample.offline_world)) =
  404%nat.
Proof.
  split; [reflexivity|].
  apply (list_unknown_collection_404 Sample.offline_world "unknowncollection" None).
  reflexivity.
Defined.

Lemma get_documents_limit_witness :
  length (collection Sample.five_db "title") = 5%nat /\
  exists docs,
    get_documents "title" None (Some 2%Z) Sample.five_world = (Ok docs, Sample.five_world) /\
    length docs = 2%nat.
Proof.
  split; [reflexivity|].
  destruct (get_documents_limit Sample.five_world Sample.five_db "title" None eq_refl)
    as (_ & Hcap & _).
  destruct (Hcap 2%Z) as (docs & Hrun & _ & Hlen); [discriminate|].
  exists docs. split; [exact Hrun | exact Hlen].
Defined.


(** * Where the claims fail *)



(** C7 as stated: two readings a microsecond apart that straddle a
    millisecond are persisted as different timestamps. *)
Lemma create_document_timestamps_differ :
  exists stored,
    create_document "title" (inl (mk_BaseModel Title Sample.hero)) Sample.empty_world =
      (Ok Sample.hero_id, Sample.hero_world) /\
    option_map (fun d => collection d "title") (db Sample.hero_world) = Some [stored] /\
    dict_get "created_at" stored =
      Some (VDatetime (mk_datetime 2026 11 4 9 42 0 123000 false)) /\
    dict_get "updated_at" stored =
      Some (VDatetime (mk_datetime 2026 11 4 9 42 0 124000 false)) /\
    dict_get "created_at" stored <> dict_get "updated_at" stored.
Proof. eexists. repeat split. discriminate. Qed.

(** * The routes at work *)

(** Twenty-four characters with whitespace between the digits are no
    [InvalidId]: the identifier has fewer than 12 bytes, [update_document]
    reads the clock and asks the store, which holds no such identifier. *)
Example padded_id_reaches_the_store :
  ObjectId_of_str "00 00 00 00 00 00 00 ff " = Some (mk_ObjectId 8 255) /\
  update_document "title" "00 00 00 00 00 00 00 ff " Sample.patch Sample.hero_world =
    (Ok false, tick Sample.hero_world) /\
  get_document_by_id "title" "00 00 00 00 00 00 00 ff " Sample.hero_world =
    (Ok None, Sample.hero_world).
Proof. repeat split. Qed.

Example registry_ignores_case :
  get_model_by_collection "LootTable" = Some LootTable /\
  get_model_by_collection "loot_table" = None.
Proof. split; reflexivity. Qed.

(** The Kelvin sign lowers to the letter k, so a name spelt with it
    resolves; an accented capital does not lower to ASCII. *)
Example kelvin_sign_resolves :
  get_model_by_collection "bacKground" = Some Background /\
  get_model_by_collection "TÍTLE" = None.
Proof. split; reflexivity. Qed.

Example post_then_get_other_case :
  let w := snd (FastAPI.route
                  (FastAPI.POST "Title" (Main.mk_CreatePayload [("name", VStr "Hero")]))
                  Sample.empty_world) in
  fst (FastAPI.route (FastAPI.GET_one "Title" Sample.hero_id) w) =
    Ok (VDict Sample.hero_returned) /\
  FastAPI.status_code (fst (FastAPI.route (FastAPI.GET_one "title" Sample.hero_id) w)) =
    404%nat.
Proof. split; reflexivity. Qed.

Example delete_twice :
  let w := snd (delete_document "title" Sample.hero_id Sample.hero_world) in
  fst (delete_document "title" Sample.hero_id Sample.hero_world) = Ok true /\
  fst (delete_document "title" Sample.hero_id w) = Ok false.
Proof. split; reflexivity. Qed.

Example offline_listing_is_500 :
  FastAPI.status_code
    (fst (FastAPI.route (FastAPI.GET_list "item" None) Sample.offline_world)) = 500%nat.
Proof. reflexivity. Qed.

(** * The further properties at sample inputs *)

Lemma schema_summary_describes_served_collections_witness :
  dict_get "item" (@schema_summary Sample.named_schema) =
  Some (VDict [ ("title", VStr "Item"); ("collection", VStr "item");
                ("schema", VStr "Item") ]).
Proof.
  destruct (@schema_summary_describes_served_collections Sample.named_schema "Item")
    as (_ & _ & Hknown).
  exact (Hknown Item eq_refl).
Defined.

Lemma unknown_collection_is_404_on_every_route_witness :
  FastAPI.route (FastAPI.DELETE "monster" Sample.hero_id) Sample.hero_world =
  (Raise (HTTPException 404 "Unknown collection"), Sample.hero_world).
Proof.
  apply (unknown_collection_is_404_on_every_route
           (FastAPI.DELETE "monster" Sample.hero_id) Sample.hero_world).
  reflexivity.
Defined.

Lemma no_database_is_500_on_every_route_witness :
  FastAPI.status_code
    (fst (FastAPI.route (FastAPI.PUT "title" Sample.hero_id Sample.epic)
            Sample.offline_world)) = 500%nat /\
  snd (FastAPI.route (FastAPI.PUT "title" Sample.hero_id Sample.epic)
         Sample.offline_world) = Sample.offline_world.
Proof.
  destruct (no_database_is_500_on_every_route
              (FastAPI.PUT "title" Sample.hero_id Sample.epic) Sample.offline_world Title
              eq_refl eq_refl) as (Hstatus & Hworld & _).
  split; [exact Hstatus | exact Hworld].
Defined.

Lemma identifiers_stay_unique_witness :
  world_unique_ids Sample.hero_world /\
  world_unique_ids
    (snd (FastAPI.route (FastAPI.POST "title" (Main.mk_CreatePayload Sample.hero))
            Sample.hero_world)).
Proof.
  assert (Hhero : world_unique_ids Sample.hero_world).
  { apply (unique_create_document "title" (inl (mk_BaseModel Title Sample.hero))
             Sample.empty_world).
    exact unique_ids_empty. }
  split; [exact Hhero|].
  destruct (identifiers_stay_unique Sample.hero_world Hhero) as [Hroutes _].
  exact (Hroutes (FastAPI.POST "title" (Main.mk_CreatePayload Sample.hero))).
Defined.

Lemma create_appends_to_listing_witness :
  exists docs r,
    get_documents "title" None None Sample.empty_world = (Ok docs, Sample.empty_world) /\
    get_documents "title" None None Sample.hero_world =
      (Ok (docs ++ [r])%list, Sample.hero_world) /\
    dict_get "id" r = Some (VStr Sample.hero_id).
Proof.
  destruct (create_appends_to_listing Sample.empty_world Sample.hero_world "title"
              (inl (mk_BaseModel Title Sample.hero)) Sample.hero_id eq_refl)
    as (docs & r & Hbefore & Hafter & Hid & _).
  exists docs, r. split; [exact Hbefore|]. split; [exact Hafter|].
  apply Hid. reflexivity.
Defined.


Lemma deleted_document_is_gone_witness :
  fst (get_document_by_id "title" Sample.hero_id Sample.cleared_world) = Ok None /\
  fst (delete_document "title" Sample.hero_id Sample.cleared_world) = Ok false.
Proof.
  destruct (deleted_document_is_gone Sample.hero_world Sample.cleared_world
              (Sample.database Sample.hero_world) "title" Sample.hero_id eq_refl)
    as (d' & _ & _ & _ & Hget & Hdelete).
  - apply (unique_create_document "title" (inl (mk_BaseModel Title Sample.hero))
             Sample.empty_world).
    exact unique_ids_empty.
  - reflexivity.
  - split; [exact Hget | exact Hdelete].
Defined.

Lemma update_then_get_witness :
  exists r,
    get_document_by_id "title" Sample.hero_id
      (snd (update_document "title" Sample.hero_id Sample.patch Sample.hero_world)) =
      (Ok (Some r),
       snd (update_document "title" Sample.hero_id Sample.patch Sample.hero_world)) /\
    dict_get "id" r = Some (VStr Sample.hero_id) /\
    dict_get "created_at" r = Some (VStr "2026-11-04T09:42:00.123000") /\
    dict_get "rarity" r = Some (VStr "epic") /\
    dict_get "name" r = Some (VStr "Hero").
Proof.
  destruct (update_then_get Sample.hero_world
              (snd (update_document "title" Sample.hero_id Sample.patch Sample.hero_world))
              (Sample.database Sample.hero_world)
              "title" Sample.hero_id 255%N Sample.hero_stored Sample.patch true
              eq_refl eq_refl eq_refl)
    as (_ & r & Hget & Hid & Hcreated & _ & Hrest).
  { apply (bool_decide_unpack _). vm_compute. exact I. }
  { reflexivity. }
  { reflexivity. }
  exists r.
  split; [exact Hget|]. split; [exact Hid|].
  split; [exact Hcreated|].
  split; [apply (Hrest "rarity") | apply (Hrest "name")];
    cbn; intros Hin; repeat (destruct Hin as [Hin|Hin]; [discriminate|]); exact Hin.
Defined.

Lemma update_keeps_documents_in_place_witness :
  exists d',
    db (snd (update_document "title" Sample.hero_id Sample.patch Sample.hero_world)) =
      Some d' /\
    ids (collection d' "title") = [Some (VObjectId 255%N)].
Proof.
  destruct (update_keeps_documents_in_place Sample.hero_world
              (Sample.database Sample.hero_world) "title" Sample.hero_id Sample.patch
              eq_refl) as (d' & Hdb & Hids).
  exists d'. split; [exact Hdb | exact (Hids "title")].
Defined.

Lemma created_id_is_an_ObjectId_witness :
  String.length Sample.hero_id = 24%nat /\
  exists oid, ObjectId_of_str Sample.hero_id = Some oid /\
              ObjectId_str oid = Sample.hero_id.
Proof.
  destruct (created_id_is_an_ObjectId Sample.empty_world Sample.hero_world "title"
              (inl (mk_BaseModel Title Sample.hero)) Sample.hero_id eq_refl eq_refl)
    as (Hlength & _ & oid & Hparse & Hstr & _).
  split; [exact Hlength|]. exists oid. split; [exact Hparse | exact Hstr].
Defined.


Lemma get_and_delete_answer_by_presence_witness :
  FastAPI.status_code (fst (Main.get_document "title" "not-an-id" Sample.hero_world)) =
    404%nat /\
  FastAPI.status_code (fst (Main.delete "title" "not-an-id" Sample.hero_world)) = 404%nat /\
  Main.update "title" "not-an-id" Sample.epic Sample.hero_world =
    (Raise Main.not_found, Sample.hero_world).
Proof.
  destruct (get_and_delete_answer_by_presence Sample.hero_world
              (Sample.database Sample.hero_world) "title" "not-an-id" Title
              eq_refl eq_refl) as (Hget & Hdelete & Hupdate).
  split; [exact Hget|]. split; [exact Hdelete|].
  exact (Hupdate eq_refl Sample.epic).
Defined.


Lemma test_database_agrees_with_startup_witness :
  exists response,
    Main.test_database Sample.probe Sample.live_world =
      (Ok (VDict response), Sample.live_world) /\
    (dict_get "connection_status" response = Some (VStr "Connected") <->
     dict_get "database_url" response = Some (VStr "✅ Set") /\
     dict_get "database_name" response = Some (VStr "✅ Set")).
Proof.
  destruct (test_database_agrees_with_startup Sample.probe Sample.live_world
              (fun _ _ => ∅) eq_refl eq_refl) as (response & Hrun & Hiff & _).
  exists response. split; [exact Hrun | exact Hiff].
Defined.

Lemma posted_document_is_served_witness :
  exists dump id,
    FastAPI.route (FastAPI.GET_one "title" id) Sample.hero_world =
    (Ok (VDict (dump ++ [ ("created_at", VStr (isoformat (timestamp Sample.empty_world 0)));
                          ("updated_at", VStr (isoformat (timestamp Sample.empty_world 1)));
                          ("id", VStr id) ])%list), Sample.hero_world).
Proof.
  destruct (posted_document_is_served Sample.empty_world Sample.hero_world "title"
              (Main.mk_CreatePayload [("name", VStr "Hero")])
              (VDict [("id", VStr Sample.hero_id)]))
    as (m & dump & id & _ & _ & _ & Hget).
  - intros m dump. apply strict_init_has_shape.
  - reflexivity.
  - exists dump, id. exact Hget.
Defined.
